(** * virtinst installer: boot configuration, domain creation and rollback

    A shallow embedding of [virtinst/installer.py] (class [Installer]) and of
    the retry helper of [tests/test_urls.py], with the properties the
    specification states about them.

    Python objects are records, [None]-able attributes are [option]s, the
    objects a method mutates ([self], the guest, the libvirt connection) live
    in an explicit [State], and a raised exception is the [Raise] result of a
    small state-and-exception monad.  Collaborators that are not part of the
    two files (libvirt, the guest XML builder, the tree-media helper, the
    progress meter) are the fields of the [Collaborators] class; every call
    to one of them is recorded, with its outcome, in the [trace]. *)

From Stdlib Require Import String Ascii List Bool Arith Lia.
Import ListNotations.
Open Scope string_scope.
Open Scope list_scope.

(** ** Python values *)

Module Py.

(** Exceptions: the class decides which [except] clause catches the value,
    [exn_msg] is [str(e)]. Every class here derives from [Exception]. *)
Inductive ExnClass : Type :=
  | ValueError
  | RuntimeError
  | TypeError
  | UnboundLocalError
  | LibvirtError
  | OtherException.

Record Exn : Type := mkExn { exn_class : ExnClass; exn_msg : string }.

Inductive res (A : Type) : Type :=
  | Ok (a : A)
  | Raise (e : Exn).
Arguments Ok {A} a.
Arguments Raise {A} e.

Definition is_libvirtError (e : Exn) : bool :=
  match exn_class e with LibvirtError => true | _ => false end.

(** Truthiness of a string-or-None attribute: [None] and [""] are false. *)
Definition truthy (o : option string) : bool :=
  match o with
  | None => false
  | Some s => negb (s =? "")
  end.

(** [a or b] on string-or-None values. *)
Definition or_else (a : option string) (b : string) : string :=
  match a with
  | Some s => if s =? "" then b else s
  | None => b
  end.

(** [x in l] for a list of strings. *)
Fixpoint str_in (x : string) (l : list string) : bool :=
  match l with
  | [] => false
  | y :: l' => (x =? y) || str_in x l'
  end.

(** [sub in s] for strings. *)
Fixpoint contains (sub s : string) : bool :=
  prefix sub s ||
  match s with
  | EmptyString => false
  | String _ s' => contains sub s'
  end.

(** [sep.join(l)]. *)
Fixpoint join (sep : string) (l : list string) : string :=
  match l with
  | [] => ""
  | [x] => x
  | x :: l' => x ++ sep ++ join sep l'
  end.

(** [os.path.basename(p)]: what follows the last slash. *)
Fixpoint basename_aux (p acc : string) : string :=
  match p with
  | EmptyString => acc
  | String c p' =>
      if Ascii.eqb c "/"%char then basename_aux p' ""
      else basename_aux p' (acc ++ String c "")
  end.
Definition basename (p : string) : string := basename_aux p "".

(** [l.insert(idx, x)]. *)
Definition list_insert {A : Type} (idx : nat) (x : A) (l : list A) : list A :=
  firstn idx l ++ x :: skipn idx l.

(** [any(l)] for a list of int-or-None values ([None] and [0] are false). *)
Definition truthy_int (o : option nat) : bool :=
  match o with
  | None | Some 0 => false
  | Some (S _) => true
  end.

End Py.
Import Py.

(** ** The guest configuration (external data model, as the installer uses it) *)

Module Virtinst.

(** [DeviceDisk.device]. *)
Inductive DiskDevice : Type :=
  | DEVICE_DISK
  | DEVICE_CDROM
  | DEVICE_FLOPPY
  | DEVICE_LUN.

Definition DiskDevice_eqb (a b : DiskDevice) : bool :=
  match a, b with
  | DEVICE_DISK, DEVICE_DISK
  | DEVICE_CDROM, DEVICE_CDROM
  | DEVICE_FLOPPY, DEVICE_FLOPPY
  | DEVICE_LUN, DEVICE_LUN => true
  | _, _ => false
  end.

(** [DomainOs.BOOT_DEVICE_*], the boot targets of libvirt's domain XML. *)
Definition BOOT_DEVICE_HARDDISK : string := "hd".
Definition BOOT_DEVICE_CDROM : string := "cdrom".
Definition BOOT_DEVICE_FLOPPY : string := "fd".
Definition BOOT_DEVICE_NETWORK : string := "network".

(** What [sync_path_props] derives from the path: type and driver. *)
Record PathProps : Type := mkPathProps {
  disk_type : option string;
  driver_name : option string;
  driver_type : option string
}.

(** A disk device. [obj_id] is the identity of the Python object: the
    installer keeps a reference to the install CDROM it put in the guest. *)
Record DeviceDisk : Type := mkDeviceDisk {
  obj_id : nat;
  device : DiskDevice;
  path : option string;
  path_props : PathProps;
  boot_order : option nat;
  storage_was_created : bool;
  vol_object : option string
}.

Definition is_cdrom (d : DeviceDisk) : bool := DiskDevice_eqb (device d) DEVICE_CDROM.

Record DomainOs : Type := mkDomainOs {
  bootorder : list string;
  kernel : option string;
  initrd : option string;
  kernel_args : option string;
  is_container : bool
}.

(** The guest: [devices_disk] is [guest.devices.disk]; [devices_other] holds
    the [boot.order] of the devices of every other kind. *)
Record Guest : Type := mkGuest {
  name : string;
  gtype : string;
  os : DomainOs;
  on_reboot : option string;
  devices_disk : list DeviceDisk;
  devices_other : list (option nat);
  osinfo_is_windows : bool
}.

Definition set_bootorder (v : list string) (o : DomainOs) : DomainOs :=
  mkDomainOs v (kernel o) (initrd o) (kernel_args o) (is_container o).
Definition set_kernel (v : option string) (o : DomainOs) : DomainOs :=
  mkDomainOs (bootorder o) v (initrd o) (kernel_args o) (is_container o).
Definition set_initrd (v : option string) (o : DomainOs) : DomainOs :=
  mkDomainOs (bootorder o) (kernel o) v (kernel_args o) (is_container o).
Definition set_kernel_args (v : option string) (o : DomainOs) : DomainOs :=
  mkDomainOs (bootorder o) (kernel o) (initrd o) v (is_container o).

Definition set_os (v : DomainOs) (g : Guest) : Guest :=
  mkGuest (name g) (gtype g) v (on_reboot g) (devices_disk g)
    (devices_other g) (osinfo_is_windows g).
Definition set_on_reboot (v : option string) (g : Guest) : Guest :=
  mkGuest (name g) (gtype g) (os g) v (devices_disk g)
    (devices_other g) (osinfo_is_windows g).
Definition set_devices_disk (v : list DeviceDisk) (g : Guest) : Guest :=
  mkGuest (name g) (gtype g) (os g) (on_reboot g) v
    (devices_other g) (osinfo_is_windows g).

Definition set_device (v : DiskDevice) (d : DeviceDisk) : DeviceDisk :=
  mkDeviceDisk (obj_id d) v (path d) (path_props d) (boot_order d)
    (storage_was_created d) (vol_object d).
Definition set_path (v : option string) (d : DeviceDisk) : DeviceDisk :=
  mkDeviceDisk (obj_id d) (device d) v (path_props d) (boot_order d)
    (storage_was_created d) (vol_object d).
Definition set_path_props (v : PathProps) (d : DeviceDisk) : DeviceDisk :=
  mkDeviceDisk (obj_id d) (device d) (path d) v (boot_order d)
    (storage_was_created d) (vol_object d).

(** [guest.devices.get_all()], as far as the boot order flags go. *)
Definition all_boot_orders (g : Guest) : list (option nat) :=
  map boot_order (devices_disk g) ++ devices_other g.

(** The five fields the install phase overwrites and puts back. *)
Definition boot_config (g : Guest)
  : list string * option string * option string * option string * option string :=
  (bootorder (os g), kernel (os g), initrd (os g), kernel_args (os g), on_reboot g).

End Virtinst.
Import Virtinst.

(** ** The installer *)

Module Installer.

(** The handle [InstallerTreeMedia] gives the installer. *)
Record TreeMedia : Type := mkTreeMedia {
  tm_location : string;
  tm_cdrom_path : option string
}.

Inductive Domain : Type := DomainHandle (n : nat).

Inductive LogLevel : Type := DEBUG | WARNING | ERROR.

(** One entry per call that leaves the process or writes the log. *)
Inductive Event : Type :=
  | EvValidatePath (p : string) (r : res string)
  | EvTreeMediaInit (location : string) (r : res TreeMedia)
  | EvTreeMediaPrepare (r : res (option string * option string * option string))
  | EvTreeMediaCleanup (r : res unit)
  | EvDiskValidate (id : nat) (r : res unit)
  | EvBuildStorage (id : nat) (r : res (option (option string)))
  | EvValidateName (n : string) (r : res unit)
  | EvDefineXML (xml : string) (r : res Domain)
  | EvCreateXML (xml : string) (flags : nat) (r : res Domain)
  | EvDomainCreate (d : Domain) (r : res unit)
  | EvDomainUndefine (d : Domain) (r : res unit)
  | EvSetAutostart (d : Domain) (flag : bool) (r : res unit)
  | EvXMLDesc (d : Domain) (r : res string)
  | EvMeterStart (text : string) (r : res unit)
  | EvMeterEnd (r : res unit)
  | EvVolDelete (vol : string) (r : res unit)
  | EvUnlink (p : string) (r : res unit)
  | EvLog (lvl : LogLevel) (msg : string).

(** The collaborators of §6 of the specification. [World] is whatever they
    keep between calls: the hypervisor, the storage, the network. *)
Class Collaborators : Type := {
  World : Type;
  (* InstallerTreeMedia *)
  treemedia_validate_path : string -> World -> res string * World;
  treemedia_init :
    string -> option string -> option string -> World -> res TreeMedia * World;
  treemedia_prepare :
    TreeMedia -> Guest -> World ->
    res (option string * option string * option string) * World;
  treemedia_cleanup : TreeMedia -> Guest -> World -> res unit * World;
  (* DeviceDisk *)
  disk_path_props : DeviceDisk -> World -> PathProps;
  disk_validate : DeviceDisk -> World -> res unit * World;
  disk_build_storage : DeviceDisk -> World -> res (option (option string)) * World;
  (* Guest *)
  guest_validate_name : string -> World -> res unit * World;
  guest_set_defaults : Guest -> World -> res unit * Guest;
  guest_get_xml : Guest -> res string;
  (* libvirt connection and domains *)
  conn_defineXML : string -> World -> res Domain * World;
  conn_createXML : string -> nat -> World -> res Domain * World;
  domain_create : Domain -> World -> res unit * World;
  domain_undefine : Domain -> World -> res unit * World;
  domain_setAutostart : Domain -> bool -> World -> res unit * World;
  domain_XMLDesc : Domain -> nat -> World -> res string * World;
  is_error_nosupport : Exn -> bool;
  (* progress meter, storage, environment *)
  meter_start : string -> World -> res unit * World;
  meter_end : World -> res unit * World;
  vol_delete : string -> World -> res unit * World;
  os_unlink : string -> World -> res unit * World;
  environ_has : string -> World -> bool
}.

(** The attributes of an [Installer] object. [_install_cdrom_device] is a
    reference: the [obj_id] of the device, which also sits in the guest. *)
Record Installer : Type := mkInstaller {
  livecd : bool;
  extra_args : list string;
  autostart : bool;
  _install_bootdev : option string;
  _install_kernel : option string;
  _install_initrd : option string;
  _install_cdrom_device : option nat;
  _defaults_are_set : bool;
  _cdrom : option string;
  _treemedia : option TreeMedia
}.

Definition set_extra_args (v : list string) (i : Installer) : Installer :=
  mkInstaller (livecd i) v (autostart i) (_install_bootdev i)
    (_install_kernel i) (_install_initrd i) (_install_cdrom_device i)
    (_defaults_are_set i) (_cdrom i) (_treemedia i).
Definition set_install_bootdev (v : option string) (i : Installer) : Installer :=
  mkInstaller (livecd i) (extra_args i) (autostart i) v
    (_install_kernel i) (_install_initrd i) (_install_cdrom_device i)
    (_defaults_are_set i) (_cdrom i) (_treemedia i).
Definition set_install_kernel (v : option string) (i : Installer) : Installer :=
  mkInstaller (livecd i) (extra_args i) (autostart i) (_install_bootdev i)
    v (_install_initrd i) (_install_cdrom_device i)
    (_defaults_are_set i) (_cdrom i) (_treemedia i).
Definition set_install_initrd (v : option string) (i : Installer) : Installer :=
  mkInstaller (livecd i) (extra_args i) (autostart i) (_install_bootdev i)
    (_install_kernel i) v (_install_cdrom_device i)
    (_defaults_are_set i) (_cdrom i) (_treemedia i).
Definition set_install_cdrom_device (v : option nat) (i : Installer) : Installer :=
  mkInstaller (livecd i) (extra_args i) (autostart i) (_install_bootdev i)
    (_install_kernel i) (_install_initrd i) v
    (_defaults_are_set i) (_cdrom i) (_treemedia i).
Definition set_defaults_are_set (v : bool) (i : Installer) : Installer :=
  mkInstaller (livecd i) (extra_args i) (autostart i) (_install_bootdev i)
    (_install_kernel i) (_install_initrd i) (_install_cdrom_device i)
    v (_cdrom i) (_treemedia i).
Definition set_cdrom (v : option string) (i : Installer) : Installer :=
  mkInstaller (livecd i) (extra_args i) (autostart i) (_install_bootdev i)
    (_install_kernel i) (_install_initrd i) (_install_cdrom_device i)
    (_defaults_are_set i) v (_treemedia i).
Definition set_treemedia (v : option TreeMedia) (i : Installer) : Installer :=
  mkInstaller (livecd i) (extra_args i) (autostart i) (_install_bootdev i)
    (_install_kernel i) (_install_initrd i) (_install_cdrom_device i)
    (_defaults_are_set i) (_cdrom i) v.

Section WithCollaborators.

Context {C : Collaborators}.

(** What a method can read and change: the installer, the guest it was
    handed, the outside world, the record of calls, and the next fresh
    object identity. *)
Record State : Type := mkState {
  self : Installer;
  guest : Guest;
  world : World;
  trace : list Event;
  next_obj : nat
}.

Definition M (A : Type) : Type := State -> res A * State.

Definition ret {A : Type} (a : A) : M A := fun s => (Ok a, s).

Definition bind {A B : Type} (m : M A) (f : A -> M B) : M B :=
  fun s =>
    match m s with
    | (Ok a, s') => f a s'
    | (Raise e, s') => (Raise e, s')
    end.

Definition raise {A : Type} (e : Exn) : M A := fun s => (Raise e, s).

(** [try: body finally: fin]. An exception of [fin] replaces the outcome. *)
Definition try_finally {A : Type} (body : M A) (fin : M unit) : M A :=
  fun s =>
    match body s with
    | (r, s1) =>
        match fin s1 with
        | (Ok _, s2) => (r, s2)
        | (Raise e, s2) => (Raise e, s2)
        end
    end.

(** [try: body except <catches> as e: handler e]. *)
Definition try_except {A : Type} (body : M A) (catches : Exn -> bool)
    (handler : Exn -> M A) : M A :=
  fun s =>
    match body s with
    | (Ok a, s1) => (Ok a, s1)
    | (Raise e, s1) => if catches e then handler e s1 else (Raise e, s1)
    end.

Definition except_Exception (e : Exn) : bool := true.

Definition get : M State := fun s => (Ok s, s).
Definition modify_self (f : Installer -> Installer) : M unit :=
  fun s => (Ok tt, mkState (f (self s)) (guest s) (world s) (trace s) (next_obj s)).
Definition modify_guest (f : Guest -> Guest) : M unit :=
  fun s => (Ok tt, mkState (self s) (f (guest s)) (world s) (trace s) (next_obj s)).
Definition emit (ev : Event) : M unit :=
  fun s => (Ok tt, mkState (self s) (guest s) (world s) (trace s ++ [ev]) (next_obj s)).

(** A call to a collaborator: the world moves on, the call and its outcome
    go to the trace, an exception propagates. *)
Definition call {A : Type} (ev : res A -> Event) (f : World -> res A * World) : M A :=
  fun s =>
    match f (world s) with
    | (r, w) => (r, mkState (self s) (guest s) w (trace s ++ [ev r]) (next_obj s))
    end.

Definition logging (lvl : LogLevel) (msg : string) : M unit := emit (EvLog lvl msg).

End WithCollaborators.

Declare Scope py_scope.
Delimit Scope py_scope with py.
Notation "x <- m ;; k" := (bind m (fun x => k))
  (at level 100, m at next level, right associativity) : py_scope.
Notation "m ;; k" := (bind m (fun _ => k))
  (at level 100, right associativity) : py_scope.
Open Scope py_scope.

Section Methods.

Context {C : Collaborators}.

(** *** Construction *)

(** [Installer.__init__]. The object under construction is [self]; whatever
    [self] held before is overwritten. *)
Definition __init__ (cdrom location install_bootdev location_kernel
    location_initrd : option string) : M unit :=
  modify_self (fun _ =>
    mkInstaller false [] false install_bootdev None None None false None None) ;;
  (if truthy location_kernel || truthy location_initrd then
     (if negb (truthy location) then
        raise (mkExn ValueError
          "location kernel/initrd may only be specified with a location URL/path")
      else ret tt) ;;
     (if negb (truthy location_kernel && truthy location_initrd) then
        raise (mkExn ValueError
          "location kernel/initrd must be be specified as a pair")
      else ret tt)
   else ret tt) ;;
  modify_self (set_cdrom None) ;;
  modify_self (set_treemedia None) ;;
  (match cdrom with
   | Some c =>
       if truthy cdrom then
         c' <- call (EvValidatePath c) (treemedia_validate_path c) ;;
         modify_self (set_cdrom (Some c')) ;;
         modify_self (set_install_bootdev (Some "cdrom"))
       else ret tt
   | None => ret tt
   end) ;;
  (match location with
   | Some l =>
       if truthy location then
         tm <- call (EvTreeMediaInit l)
                 (treemedia_init l location_kernel location_initrd) ;;
         modify_self (set_treemedia (Some tm))
       else ret tt
   | None => ret tt
   end).

(** *** Private helpers *)

Definition _cdrom_path (i : Installer) : option string :=
  match _treemedia i with
  | Some tm => tm_cdrom_path tm
  | None => _cdrom i
  end.

(** [DeviceDisk(conn)]: a new object with the defaults of the class. *)
Definition new_DeviceDisk : M DeviceDisk :=
  fun s =>
    (Ok (mkDeviceDisk (next_obj s) DEVICE_DISK None (mkPathProps None None None)
           None false None),
     mkState (self s) (guest s) (world s) (trace s) (S (next_obj s))).

(** [dev.sync_path_props()]: recompute type and driver from the path. *)
Definition sync_path_props (w : World) (d : DeviceDisk) : DeviceDisk :=
  set_path_props (disk_path_props d w) d.

(** The loop of [_add_install_cdrom_device]: [disks] is what is left to
    enumerate, [idx] its index in [all]. [guest.devices.add_child(dev, idx)]
    inserts among the disks at [idx], [guest.add_device(dev)] appends. *)
Fixpoint _add_install_cdrom_loop (dev : DeviceDisk) (disks : list DeviceDisk)
    (idx : nat) (all : list DeviceDisk) : list DeviceDisk :=
  match disks with
  | [] => all ++ [dev]
  | disk :: rest =>
      if is_cdrom disk then list_insert idx dev all
      else _add_install_cdrom_loop dev rest (S idx) all
  end.

Definition _add_install_cdrom_device : M unit :=
  s <- get ;;
  match _install_cdrom_device (self s) with
  | Some _ => ret tt
  | None =>
      if negb (truthy (_cdrom_path (self s))) then ret tt
      else
        dev <- new_DeviceDisk ;;
        let dev := set_device DEVICE_CDROM dev in
        let dev := set_path (_cdrom_path (self s)) dev in
        let dev := sync_path_props (world s) dev in
        call (EvDiskValidate (obj_id dev)) (disk_validate dev) ;;
        modify_self (set_install_cdrom_device (Some (obj_id dev))) ;;
        modify_guest (fun g =>
          set_devices_disk
            (_add_install_cdrom_loop dev (devices_disk g) 0 (devices_disk g)) g)
  end.

(** Assignment through a reference: the object [id] of the guest's disks. *)
Definition update_obj (id : nat) (f : DeviceDisk -> DeviceDisk) (g : Guest) : Guest :=
  set_devices_disk
    (map (fun d => if Nat.eqb (obj_id d) id then f d else d) (devices_disk g)) g.

Definition _remove_install_cdrom_media : M unit :=
  s <- get ;;
  match _install_cdrom_device (self s) with
  | None => ret tt
  | Some id =>
      if livecd (self s) then ret tt
      else if osinfo_is_windows (guest s) then ret tt
      else
        modify_guest (update_obj id (fun d =>
          sync_path_props (world s) (set_path None d)))
  end.

Definition is_DEVICE_DISK (d : DeviceDisk) : bool :=
  DiskDevice_eqb (device d) DEVICE_DISK.

(** The loop of [_build_boot_order], [break] included. *)
Fixpoint _build_boot_order_loop (disks : list DeviceDisk)
    (bootorder : list string) : list string :=
  match disks with
  | [] => bootorder
  | disk :: rest =>
      if is_DEVICE_DISK disk then
        let bootdev := "hd" in
        if negb (str_in bootdev bootorder) then bootorder ++ [bootdev]
        else bootorder
      else _build_boot_order_loop rest bootorder
  end.

Definition _build_boot_order (g : Guest) (bootdev : string) : list string :=
  _build_boot_order_loop (devices_disk g) [bootdev].

Definition _can_set_guest_bootorder (g : Guest) : bool :=
  negb (is_container (os g)) &&
  negb (truthy (kernel (os g))) &&
  negb (existsb truthy_int (all_boot_orders g)).

Definition _alter_bootconfig : M unit :=
  modify_guest (set_on_reboot (Some "destroy")) ;;
  s <- get ;;
  (if truthy (_install_kernel (self s)) then
     modify_guest (fun g => set_os (set_kernel (_install_kernel (self s)) (os g)) g)
   else ret tt) ;;
  (if truthy (_install_initrd (self s)) then
     modify_guest (fun g => set_os (set_initrd (_install_initrd (self s)) (os g)) g)
   else ret tt) ;;
  (match extra_args (self s) with
   | [] => ret tt
   | _ :: _ =>
       modify_guest (fun g =>
         set_os (set_kernel_args (Some (join " " (extra_args (self s)))) (os g)) g)
   end) ;;
  s <- get ;;
  match _install_bootdev (self s) with
  | Some bootdev =>
      if truthy (Some bootdev) && _can_set_guest_bootorder (guest s) then
        modify_guest (fun g =>
          set_os (set_bootorder (_build_boot_order g bootdev) (os g)) g)
      else modify_guest (fun g => set_os (set_bootorder [] (os g)) g)
  | None => modify_guest (fun g => set_os (set_bootorder [] (os g)) g)
  end.

(** *** Internal API *)

Definition _prepare : M unit :=
  s <- get ;;
  match _treemedia (self s) with
  | Some tm =>
      kia <- call EvTreeMediaPrepare (treemedia_prepare tm (guest s)) ;;
      let '(k, i, a) := kia in
      modify_self (set_install_kernel k) ;;
      modify_self (set_install_initrd i) ;;
      s <- get ;;
      match a with
      | Some a' =>
          if truthy a && negb (environ_has "VIRTINST_INITRD_TEST" (world s)) then
            modify_self (fun i => set_extra_args (extra_args i ++ [a']) i)
          else ret tt
      | None => ret tt
      end
  | None => ret tt
  end.

Definition _cleanup : M unit :=
  s <- get ;;
  match _treemedia (self s) with
  | Some tm => call EvTreeMediaCleanup (treemedia_cleanup tm (guest s))
  | None => ret tt
  end.

Definition _get_postinstall_bootdev (i : Installer) (g : Guest) : string :=
  if truthy (_cdrom i) && livecd i then BOOT_DEVICE_CDROM
  else
    match _install_bootdev i with
    | Some b =>
        if truthy (Some b) then
          if existsb is_DEVICE_DISK (devices_disk g) then BOOT_DEVICE_HARDDISK
          else b
        else
          match devices_disk g with
          | d :: _ =>
              match device d with
              | DEVICE_DISK => BOOT_DEVICE_HARDDISK
              | DEVICE_CDROM => BOOT_DEVICE_CDROM
              | DEVICE_FLOPPY => BOOT_DEVICE_FLOPPY
              | DEVICE_LUN => BOOT_DEVICE_HARDDISK
              end
          | [] => BOOT_DEVICE_HARDDISK
          end
    | None =>
        match devices_disk g with
        | d :: _ =>
            match device d with
            | DEVICE_DISK => BOOT_DEVICE_HARDDISK
            | DEVICE_CDROM => BOOT_DEVICE_CDROM
            | DEVICE_FLOPPY => BOOT_DEVICE_FLOPPY
            | DEVICE_LUN => BOOT_DEVICE_HARDDISK
            end
        | [] => BOOT_DEVICE_HARDDISK
        end
    end.

(** *** Public API *)

(** [guest.set_defaults(None)]: the guest fills in its own defaults. *)
Definition call_set_defaults : M unit :=
  fun s =>
    match guest_set_defaults (guest s) (world s) with
    | (r, g) => (r, mkState (self s) g (world s) (trace s) (next_obj s))
    end.

Definition set_install_defaults : M unit :=
  s <- get ;;
  if _defaults_are_set (self s) then ret tt
  else
    _add_install_cdrom_device ;;
    s <- get ;;
    (match bootorder (os (guest s)) with
     | [] =>
         if _can_set_guest_bootorder (guest s) then
           let bootdev := _get_postinstall_bootdev (self s) (guest s) in
           modify_guest (fun g =>
             set_os (set_bootorder (_build_boot_order g bootdev) (os g)) g)
         else ret tt
     | _ :: _ => ret tt
     end) ;;
    call_set_defaults ;;
    modify_self (set_defaults_are_set true).

Definition has_install_phase (i : Installer) : bool :=
  if truthy (_cdrom i) && livecd i then false
  else truthy (_cdrom i) || truthy (_install_bootdev i) ||
       match _treemedia i with Some _ => true | None => false end.

(** *** Guest install handling *)

Definition get_xml : M string := fun s => (guest_get_xml (guest s), s).

Definition nl : string := String (ascii_of_nat 10) "".

Definition BootData : Type :=
  (list string * option string * option string * option string * option string)%type.

Definition _prepare_get_install_xml : M BootData :=
  s <- get ;;
  let g := guest s in
  let data := (bootorder (os g), kernel (os g), initrd (os g),
               kernel_args (os g), on_reboot g) in
  ret data.

Definition _finish_get_install_xml (data : BootData) : M unit :=
  let '(bo, k, i, ka, r) := data in
  modify_guest (fun g => set_os (set_bootorder bo (os g)) g) ;;
  modify_guest (fun g => set_os (set_kernel k (os g)) g) ;;
  modify_guest (fun g => set_os (set_initrd i (os g)) g) ;;
  modify_guest (fun g => set_os (set_kernel_args ka (os g)) g) ;;
  modify_guest (set_on_reboot r).

Definition _get_install_xml : M string :=
  data <- _prepare_get_install_xml ;;
  try_finally
    (_alter_bootconfig ;;
     ret_ <- get_xml ;;
     ret ret_)
    (_remove_install_cdrom_media ;;
     _finish_get_install_xml data).

Definition _build_xml : M (option string * string) :=
  s <- get ;;
  install_xml <-
    (if has_install_phase (self s) then
       x <- _get_install_xml ;; ret (Some x)
     else ret None) ;;
  final_xml <- get_xml ;;
  logging DEBUG ("Generated install XML: " ++
    match install_xml with
    | Some x => if x =? "" then "None required" else nl ++ x
    | None => "None required"
    end) ;;
  logging DEBUG ("Generated boot XML: " ++ nl ++ final_xml) ;;
  ret (install_xml, final_xml).

(** For hypervisors (like vz) that do not implement createXML: define and
    start, and undefine on start failure. The bare [raise] of the handler
    re-raises the exception of [domain.create()]. *)
Definition _manual_transient_create (install_xml : option string)
    (final_xml : string) (needs_boot : bool) : M Domain :=
  let xml := or_else install_xml final_xml in
  domain <- call (EvDefineXML xml) (conn_defineXML xml) ;;
  if negb needs_boot then ret domain
  else
    try_except
      (call (EvDomainCreate domain) (domain_create domain))
      except_Exception
      (fun e =>
         try_except
           (call (EvDomainUndefine domain) (domain_undefine domain))
           except_Exception
           (fun _ => ret tt) ;;
         raise e) ;;
    match install_xml with
    | Some x =>
        if truthy install_xml && negb (x =? final_xml) then
          call (EvDefineXML final_xml) (conn_defineXML final_xml)
        else ret domain
    | None => ret domain
    end.

(** A local variable that is read: unbound is [UnboundLocalError]. *)
Definition read_local {A : Type} (var : string) (v : option A) : M A :=
  match v with
  | Some a => ret a
  | None =>
      raise (mkExn UnboundLocalError
        ("local variable '" ++ var ++ "' referenced before assignment"))
  end.

Definition _create_guest (install_xml : option string) (final_xml : string)
    (doboot transient : bool) : M Domain :=
  let meter_label := "Creating domain..." in
  call (EvMeterStart meter_label) (meter_start meter_label) ;;
  s <- get ;;
  let needs_boot := doboot || has_install_phase (self s) in
  domain <-
    (if gtype (guest s) =? "vz" then
       (if transient then
          raise (mkExn RuntimeError
            "Domain type 'vz' doesn't support transient installs.")
        else ret tt) ;;
       d <- _manual_transient_create install_xml final_xml needs_boot ;;
       ret (Some d)
     else
       domain <-
         (if transient || needs_boot then
            let xml := or_else install_xml final_xml in
            d <- call (EvCreateXML xml 0) (conn_createXML xml 0) ;;
            ret (Some d)
          else ret None) ;;
       if negb transient then
         d <- call (EvDefineXML final_xml) (conn_defineXML final_xml) ;;
         ret (Some d)
       else ret domain) ;;
  try_except
    (d <- read_local "domain" domain ;;
     xml <- call (EvXMLDesc d) (domain_XMLDesc d 0) ;;
     logging DEBUG ("XML fetched from libvirt object:" ++ nl ++ xml))
    except_Exception
    (fun e =>
       logging DEBUG ("Error fetching XML from libvirt object: " ++ exn_msg e)) ;;
  read_local "domain" domain.

(** Set the autostart flag for domain if the user requested it. *)
Definition _flag_autostart (domain : Domain) : M unit :=
  try_except
    (call (EvSetAutostart domain true) (domain_setAutostart domain true))
    is_libvirtError
    (fun e =>
       if is_error_nosupport e then
         logging WARNING
           "Could not set autostart flag: libvirt connection does not support autostart."
       else raise e).

(** *** Public install API *)

Fixpoint replace_nth {A : Type} (idx : nat) (x : A) (l : list A) : list A :=
  match l, idx with
  | [], _ => []
  | _ :: l', 0 => x :: l'
  | y :: l', S n => y :: replace_nth n x l'
  end.

(** Modelled from the spec: [DeviceDisk.build_storage] is not part of the
    file. Stage 4 creates the backing storage a disk lacks and marks the
    disk as created; the collaborator answers [None] when there was nothing
    to create and [Some vol] with the volume object (if any) otherwise. *)
Definition storage_built (r : option (option string)) (d : DeviceDisk) : DeviceDisk :=
  match r with
  | None => d
  | Some vol =>
      mkDeviceDisk (obj_id d) (device d) (path d) (path_props d) (boot_order d)
        true vol
  end.

(** [for dev in guest.devices.disk: dev.build_storage(meter)]. *)
Fixpoint build_storage_loop (disks : list DeviceDisk) (idx : nat) : M unit :=
  match disks with
  | [] => ret tt
  | dev :: rest =>
      r <- call (EvBuildStorage (obj_id dev)) (disk_build_storage dev) ;;
      modify_guest (fun g =>
        set_devices_disk (replace_nth idx (storage_built r dev) (devices_disk g)) g) ;;
      build_storage_loop rest (S idx)
  end.

(** What [start_install] returns: the XML pair, [None], or the domain. *)
Inductive InstallResult : Type :=
  | ReturnXml (install_xml : option string) (final_xml : string)
  | ReturnNone
  | ReturnDomain (d : Domain).

Definition start_install (dry return_xml doboot transient : bool)
    : M InstallResult :=
  s <- get ;;
  call (EvValidateName (name (guest s))) (guest_validate_name (name (guest s))) ;;
  set_install_defaults ;;
  try_finally
    (_prepare ;;
     (if negb dry then
        s <- get ;;
        build_storage_loop (devices_disk (guest s)) 0
      else ret tt) ;;
     xmls <- _build_xml ;;
     let '(install_xml, final_xml) := xmls in
     if return_xml then ret (ReturnXml install_xml final_xml)
     else if dry then ret ReturnNone
     else
       domain <- _create_guest install_xml final_xml doboot transient ;;
       s <- get ;;
       (if autostart (self s) then _flag_autostart domain else ret tt) ;;
       ret (ReturnDomain domain))
    _cleanup.

Definition get_created_disks (g : Guest) : list DeviceDisk :=
  filter storage_was_created (devices_disk g).

Definition str_of (o : option string) : string :=
  match o with
  | Some x => x
  | None => "None"
  end.

(** [os.path.basename(disk.path)]: a path that is [None] is a [TypeError]. *)
Definition path_basename (p : option string) : M string :=
  match p with
  | Some x => ret (basename x)
  | None =>
      raise (mkExn TypeError
        "expected str, bytes or os.PathLike object, not NoneType")
  end.

Definition os_unlink_path (p : option string) : M unit :=
  match p with
  | Some x => call (EvUnlink x) (os_unlink x)
  | None =>
      raise (mkExn TypeError
        "unlink: path should be string, bytes or os.PathLike, not NoneType")
  end.

(** The body of the loop of [cleanup_created_disks]. *)
Definition _remove_created_disk (disk : DeviceDisk) : M unit :=
  logging DEBUG ("Removing created disk path=" ++ str_of (path disk) ++
                 " vol_object=" ++ str_of (vol_object disk)) ;;
  name <- path_basename (path disk) ;;
  try_except
    (let text := ("Removing disk '" ++ name ++ "'")%string in
     call (EvMeterStart text) (meter_start text) ;;
     (match vol_object disk with
      | Some vol => call (EvVolDelete vol) (vol_delete vol)
      | None => os_unlink_path (path disk)
      end) ;;
     call EvMeterEnd meter_end)
    except_Exception
    (fun e =>
       logging DEBUG ("Failed to remove disk '" ++ name ++ "'") ;;
       logging ERROR ("Failed to remove disk '" ++ name ++ "': " ++ exn_msg e)).

Fixpoint for_each {A : Type} (l : list A) (body : A -> M unit) : M unit :=
  match l with
  | [] => ret tt
  | x :: l' => body x ;; for_each l' body
  end.

(** Remove any disks we created as part of the install. Only ever called
    by clients. *)
Definition cleanup_created_disks : M unit :=
  s <- get ;;
  let clean_disks := get_created_disks (guest s) in
  match clean_disks with
  | [] => ret tt
  | _ :: _ => for_each clean_disks _remove_created_disk
  end.

(** *** Vocabulary for the properties *)

(** [m] called [n] times in a row. *)
Fixpoint times (n : nat) (m : M unit) : M unit :=
  match n with
  | 0 => ret tt
  | S n' => m ;; times n' m
  end.

(** The device [_add_install_cdrom_device] builds when called in [s]. *)
Definition install_cdrom_of (s : State) : DeviceDisk :=
  sync_path_props (world s)
    (set_path (_cdrom_path (self s))
       (set_device DEVICE_CDROM
          (mkDeviceDisk (next_obj s) DEVICE_DISK None (mkPathProps None None None)
             None false None))).

(** Whatever [m] does and however it ends, [R] relates the states around it. *)
Definition preserves {A : Type} (R : State -> State -> Prop) (m : M A) : Prop :=
  forall s r s', m s = (r, s') -> R s s'.

Definition same_boot_config (s s' : State) : Prop :=
  boot_config (guest s') = boot_config (guest s).

(** The trace only grows, and by events that satisfy [P]. *)
Definition emits (P : Event -> bool) (s s' : State) : Prop :=
  exists evs, trace s' = trace s ++ evs /\ forallb P evs = true.

Definition is_deletion (ev : Event) : bool :=
  match ev with
  | EvVolDelete _ _ | EvUnlink _ _ => true
  | _ => false
  end.








(** The first log line of the loop of [cleanup_created_disks]. *)
Definition announced (disk : DeviceDisk) : Event :=
  EvLog DEBUG ("Removing created disk path=" ++ str_of (path disk) ++
               " vol_object=" ++ str_of (vol_object disk)).

(** The two log lines after a step of a removal failed with [e]. *)
Definition failure_logged (p : string) (e : Exn) : list Event :=
  [EvLog DEBUG ("Failed to remove disk '" ++ basename p ++ "'");
   EvLog ERROR ("Failed to remove disk '" ++ basename p ++ "': " ++ exn_msg e)].

(** The removal of one created disk, whose path is [p], against the world
    [w], as a caller sees it from outside: the meter is started, the volume
    is deleted (or, without a volume object, the file unlinked), the meter
    is ended; the first of the three that fails ends the removal and is
    logged. Every event carries what the collaborator answered; the result
    is these events and the world the collaborators leave. *)
Definition removal_run (disk : DeviceDisk) (p : string) (w : World)
    : list Event * World :=
  let text := ("Removing disk '" ++ basename p ++ "'")%string in
  match meter_start text w with
  | (Raise e, w1) => (EvMeterStart text (Raise e) :: failure_logged p e, w1)
  | (Ok u, w1) =>
      let '(del, (rd, w2)) :=
        match vol_object disk with
        | Some vol => (EvVolDelete vol, vol_delete vol w1)
        | None => (EvUnlink p, os_unlink p w1)
        end in
      match rd with
      | Raise e =>
          (EvMeterStart text (Ok u) :: del (Raise e) :: failure_logged p e, w2)
      | Ok ud =>
          match meter_end w2 with
          | (Raise e, w3) =>
              (EvMeterStart text (Ok u) :: del (Ok ud) :: EvMeterEnd (Raise e) ::
               failure_logged p e, w3)
          | (Ok ue, w3) =>
              ([EvMeterStart text (Ok u); del (Ok ud); EvMeterEnd (Ok ue)], w3)
          end
      end
  end.

(** The removals of a list of disks, one after the other, each from the
    world the one before left, whether that one succeeded or not. A disk
    without a path stops the run: its name cannot be computed. *)
Fixpoint removals (disks : list DeviceDisk) (w : World)
    : res unit * (list Event * World) :=
  match disks with
  | [] => (Ok tt, ([], w))
  | disk :: rest =>
      match path disk with
      | None =>
          (Raise (mkExn TypeError
                    "expected str, bytes or os.PathLike object, not NoneType"),
           ([announced disk], w))
      | Some p =>
          let '(evs, w1) := removal_run disk p w in
          let '(r, (evs', w2)) := removals rest w1 in
          (r, (announced disk :: evs ++ evs', w2))
      end
  end.

Definition has_path (d : DeviceDisk) : bool :=
  match path d with
  | Some _ => true
  | None => false
  end.

(** The [try] block of [start_install]. *)
Definition start_install_try (dry return_xml doboot transient : bool)
    : M InstallResult :=
  _prepare ;;
  (if negb dry then
     s <- get ;;
     build_storage_loop (devices_disk (guest s)) 0
   else ret tt) ;;
  xmls <- _build_xml ;;
  let '(install_xml, final_xml) := xmls in
  if return_xml then ret (ReturnXml install_xml final_xml)
  else if dry then ret ReturnNone
  else
    domain <- _create_guest install_xml final_xml doboot transient ;;
    s <- get ;;
    (if autostart (self s) then _flag_autostart domain else ret tt) ;;
    ret (ReturnDomain domain).

(** The calls of a dry run that leave an event: the name is validated, the
    install CDROM device is validated, the tree media are prepared and
    cleaned up, lines are logged. *)
Definition is_dry_run_event (ev : Event) : bool :=
  match ev with
  | EvValidateName _ _ | EvDiskValidate _ _ | EvTreeMediaPrepare _
  | EvTreeMediaCleanup _ | EvLog _ _ => true
  | _ => false
  end.

(** *** The remaining public API *)

(** The [location] and [cdrom] properties. *)
Definition location (i : Installer) : option string :=
  match _treemedia i with
  | Some tm => Some (tm_location tm)
  | None => None
  end.

Definition cdrom (i : Installer) : option string := _cdrom i.

Section DetectDistro.

(** [InstallerTreeMedia.detect_distro], [conn.is_remote] and
    [OSDB.guess_os_by_iso]: three more collaborators, used by
    [detect_distro] only. *)
Variable treemedia_detect_distro :
  TreeMedia -> Guest -> World -> res (option string) * World.
Variable conn_is_remote : World -> bool.
Variable guess_os_by_iso : string -> World -> res (option (string * string)) * World.

(** A call that moves the world on and raises what the collaborator raises. *)
Definition consult {A : Type} (f : World -> res A * World) : M A :=
  fun s =>
    match f (world s) with
    | (r, w) => (r, mkState (self s) (guest s) w (trace s) (next_obj s))
    end.

Definition detect_distro : M (option string) :=
  s <- get ;;
  ret_ <-
    (match _treemedia (self s) with
     | Some tm => consult (treemedia_detect_distro tm (guest s))
     | None =>
         match cdrom (self s) with
         | Some c =>
             if truthy (cdrom (self s)) then
               if conn_is_remote (world s) then
                 logging DEBUG "Can't detect distro for cdrom remote connection." ;;
                 ret None
               else
                 osguess <- consult (guess_os_by_iso c) ;;
                 match osguess with
                 | Some (variant, _) => ret (Some variant)
                 | None => ret None
                 end
             else logging DEBUG "No media for distro detection." ;; ret None
         | None => logging DEBUG "No media for distro detection." ;; ret None
         end
     end) ;;
  logging DEBUG ("installer.detect_distro returned=" ++ str_of ret_) ;;
  ret ret_.

End DetectDistro.

(** *** More vocabulary *)

Definition same_treemedia (s s' : State) : Prop :=
  _treemedia (self s') = _treemedia (self s).

(** Calls to the hypervisor: the connection and the domains. *)
Definition is_libvirt_call (ev : Event) : bool :=
  match ev with
  | EvDefineXML _ _ | EvCreateXML _ _ _ | EvDomainCreate _ _
  | EvDomainUndefine _ _ | EvSetAutostart _ _ _ | EvXMLDesc _ _ => true
  | _ => false
  end.

Definition is_build_storage (ev : Event) : bool :=
  match ev with
  | EvBuildStorage _ _ => true
  | _ => false
  end.

(** What one disk of the guest may become in [_remove_install_cdrom_media]:
    itself, or, if it is the installer's CDROM, the same device without a
    path. *)
Definition media_removed (install_cdrom : option nat) (d d' : DeviceDisk) : Prop :=
  obj_id d' = obj_id d /\ device d' = device d /\
  (d' = d \/ (install_cdrom = Some (obj_id d) /\ path d' = None)).

(** What a non-vz [_create_guest] may ask of libvirt: a transient domain
    from [createXML], a persistent one from [defineXML] of the final XML
    (never when transient), a look at the result. *)
Definition plain_create_event (final_xml : string) (transient : bool)
    (ev : Event) : Prop :=
  match ev with
  | EvDefineXML xml _ => xml = final_xml /\ transient = false
  | EvDomainCreate _ _ | EvDomainUndefine _ _ | EvSetAutostart _ _ _ => False
  | _ => True
  end.

End Methods.

End Installer.

(** ** URL detection tests: the retry helper, and the detection it drives *)

Module TestUrls.

(** *** The detection engine *)

Record Fetcher : Type := mkFetcher {
  location : string;
  hasFile : string -> bool
}.

Record GuestShape : Type := mkGuestShape {
  arch : string;
  hvm : bool;
  os_variant_hint : option string
}.

Record DistroDescriptor : Type := mkDistroDescriptor {
  family_tag : string;
  os_variant : option string;
  kernel_path : string;
  initrd_path : string;
  kernel_args : option string
}.

(** Modelled from the spec: the distro families of [virtinst.urldetect] are
    not part of the files. A family tests the tree for its marker files and,
    once matched, builds the descriptor (or fails for good). *)
Record Family : Type := mkFamily {
  tag : string;
  variants : list string;
  markers : list string;
  buildDescriptor : Fetcher -> GuestShape -> res DistroDescriptor
}.

Definition matches (f : Family) (fetcher : Fetcher) : bool :=
  existsb (hasFile fetcher) (markers f).

Definition hint : string := "maybe you mistyped".

(** Modelled from the spec: the message of the [DetectionError] (a
    [ValueError] for the test) names the location and suggests the typo. *)
Definition DetectionError (fetcher : Fetcher) : Exn :=
  mkExn ValueError
    ("Could not find an installable distribution at '" ++ location fetcher ++
     "': the location could not be accessed, " ++ hint ++ "?").

(** Modelled from the spec: families are tried strictly in priority order,
    the first positive match wins, no backtracking. *)
Fixpoint scan (families : list Family) (fetcher : Fetcher) (shape : GuestShape)
    : res DistroDescriptor :=
  match families with
  | [] => Raise (DetectionError fetcher)
  | f :: rest =>
      if matches f fetcher then buildDescriptor f fetcher shape
      else scan rest fetcher shape
  end.

(** Modelled from the spec: [urldetect.getDistroStore] is not part of the
    files. With an asserted variant only the families of that variant are
    scanned, otherwise all of them. *)
Definition detect (families : list Family) (fetcher : Fetcher)
    (shape : GuestShape) : res DistroDescriptor :=
  match os_variant_hint shape with
  | Some v => scan (filter (fun f => str_in v (variants f)) families) fetcher shape
  | None => scan families fetcher shape
  end.

(** A location nothing can be fetched from. *)
Definition unreachable (fetcher : Fetcher) : Prop :=
  forall relpath, hasFile fetcher relpath = false.

(** *** [_storeForDistro] *)

Inductive TestEvent (Store : Type) : Type :=
  | Attempt (r : res Store)
  | LogDebug (msg : string)
  | Sleep (milliseconds : nat).
Arguments Attempt {Store} r.
Arguments LogDebug {Store} msg.
Arguments Sleep {Store} milliseconds.

Section StoreForDistro.

(** [urldetect.getDistroStore(guest, fetcher)] against a network that may
    answer differently every time. *)
Variable Net : Type.
Variable Store : Type.
Variable getDistroStore : Net -> res Store * Net.

Definition is_proxy_error (e : Exn) : bool := contains "502" (exn_msg e).

(** The body of [for ignore in range(0, 10)]; [time.sleep(.5)] is 500 ms.
    After the loop the bare [raise] has no active exception. *)
Fixpoint _storeForDistro_loop (range : list nat) (net : Net)
    (log : list (TestEvent Store)) : res Store * (Net * list (TestEvent Store)) :=
  match range with
  | [] =>
      (Raise (mkExn RuntimeError "No active exception to reraise"), (net, log))
  | _ :: rest =>
      match getDistroStore net with
      | (Ok store, net') => (Ok store, (net', log ++ [Attempt (Ok store)]))
      | (Raise e, net') =>
          if is_proxy_error e then
            _storeForDistro_loop rest net'
              (log ++ [Attempt (Raise e);
                       LogDebug ("Caught proxy error: " ++ exn_msg e);
                       Sleep 500])
          else (Raise e, (net', log ++ [Attempt (Raise e)]))
      end
  end.

Definition _storeForDistro (net : Net) (log : list (TestEvent Store))
    : res Store * (Net * list (TestEvent Store)) :=
  _storeForDistro_loop (seq 0 10) net log.

(** What one transient failure leaves in the log. *)
Definition retry_block (e : Exn) : list (TestEvent Store) :=
  [Attempt (Raise e); LogDebug ("Caught proxy error: " ++ exn_msg e); Sleep 500].

Definition attempts (log : list (TestEvent Store)) : nat :=
  length (filter (fun ev => match ev with Attempt _ => true | _ => false end) log).

(** The network after [k] calls of [getDistroStore], and what call number
    [k] (counted from 0) answers. *)
Fixpoint net_after (k : nat) (net : Net) : Net :=
  match k with
  | 0 => net
  | S k' => net_after k' (snd (getDistroStore net))
  end.

Definition answer (k : nat) (net : Net) : res Store :=
  fst (getDistroStore (net_after k net)).

(** An answer that is retried: an exception whose message contains "502". *)
Definition transient (r : res Store) : bool :=
  match r with
  | Raise e => is_proxy_error e
  | Ok _ => false
  end.

(** What the first [k] calls leave in the log when each of them failed:
    the attempt with the exception it got, the debug line, the sleep. *)
Definition retry_log (k : nat) (net : Net) : list (TestEvent Store) :=
  flat_map (fun j => match answer j net with
                     | Raise e => retry_block e
                     | Ok _ => []
                     end) (seq 0 k).

End StoreForDistro.

(** Total time slept, in milliseconds. *)
Definition slept {Store : Type} (log : list (TestEvent Store)) : nat :=
  fold_right (fun ev acc => match ev with Sleep ms => ms + acc | _ => acc end) 0 log.

(** *** [_URLTestData] *)

(** The distro classes of [virtinst.urldetect] the tests know. *)
Inductive DistroClass : Type :=
  | FedoraDistro
  | CentOSDistro
  | RHELDistro
  | SuseDistro
  | DebianDistro
  | UbuntuDistro
  | MandrivaDistro
  | ALTLinuxDistro
  | GenericTreeinfoDistro.

(** Map the test case name to the expected urldetect distro class. *)
Definition _distroclass_for_name (name : string) : res DistroClass :=
  if contains "fedora" name then Ok FedoraDistro
  else if contains "centos" name then Ok CentOSDistro
  else if contains "rhel" name then Ok RHELDistro
  else if contains "suse" name then Ok SuseDistro
  else if contains "debian" name then Ok DebianDistro
  else if contains "ubuntu" name then Ok UbuntuDistro
  else if contains "mageia" name then Ok MandrivaDistro
  else if contains "altlinux" name then Ok ALTLinuxDistro
  else if contains "generic" name then Ok GenericTreeinfoDistro
  else
    Raise (mkExn RuntimeError
      ("name=" ++ name ++
       " didn't map to any distro class. Extend _distroclass_for_name")).

Definition _find_arch (url : string) : string :=
  if contains "i686" url || contains "i386" url || contains "i586" url then "i686"
  else if contains "arm64" url || contains "aarch64" url then "aarch64"
  else if contains "ppc64el" url || contains "ppc64le" url then "ppc64le"
  else if contains "s390" url then "s390x"
  else if contains "x86_64" url || contains "amd64" url then "x86_64"
  else "x86_64".

Module URLTestData.

(** All data needed for a single URL test case. *)
Record t : Type := mk {
  name : string;
  url : string;
  detectdistro : option string;
  arch : string;
  distroclass : DistroClass;
  kernelarg : option string;
  kernelregex : option string;
  testxen : bool;
  testshortcircuit : bool
}.

(** [_URLTestData.__init__]. *)
Definition __init__ (name url : string) (detectdistro : option string)
    (testxen testshortcircuit : bool) (kernelarg kernelregex : option string)
    : res t :=
  let arch := _find_arch url in
  match _distroclass_for_name name with
  | Ok distroclass =>
      Ok (mk name url detectdistro arch distroclass kernelarg kernelregex
            testxen testshortcircuit)
  | Raise e => Raise e
  end.

End URLTestData.

(** [detectdistro in ["none", "None", None]]. *)
Definition _sanitize_osdict_name (detectdistro : option string) : option string :=
  match detectdistro with
  | None => None
  | Some d => if (d =? "none") || (d =? "None") then None else Some d
  end.

Definition distro_keywords : list string :=
  ["fedora"; "centos"; "rhel"; "suse"; "debian"; "ubuntu"; "mageia"; "altlinux";
   "generic"].

Definition is_Ok {A : Type} (r : res A) : bool :=
  match r with
  | Ok _ => true
  | Raise _ => false
  end.

(** A mirror behind a proxy that answers 502 twice, then serves the tree. *)
Definition flaky_mirror (n : nat) : res string * nat :=
  if Nat.ltb n 2 then (Raise (mkExn OtherException "HTTP Error 502: Bad Gateway"), S n)
  else (Ok "fedora30", S n).

(** [test001BadURL]: the URL of the test, hvm guest, no variant asserted. *)
Definition badurl : string := "http://aksdkakskdfa-idontexist.com/foo/tree".
Definition hvmguest : GuestShape := mkGuestShape "x86_64" true None.

End TestUrls.

(** ** A concrete set of collaborators

    A world that counts the calls made to it. The switches make the start
    of a defined domain, its undefine, the autostart setter and the removal
    of a storage volume fail; unlinking a file always works. *)

Module Demo.
Import Installer.

Record Switches : Type := mkSwitches {
  fail_create : bool;
  fail_undefine : bool;
  fail_autostart : option Exn;
  fail_delete : bool
}.

Definition answer {A : Type} (fails : bool) (msg : string) (a : A) (w : nat)
    : res A * nat :=
  if fails then (Raise (mkExn LibvirtError msg), S w) else (Ok a, S w).

Definition collaborators (sw : Switches) : Collaborators := {|
  World := nat;
  treemedia_validate_path := fun p w => (Ok p, S w);
  treemedia_init := fun l _ _ w => (Ok (mkTreeMedia l None), S w);
  treemedia_prepare := fun _ _ w =>
    (Ok (Some "/var/lib/libvirt/boot/vmlinuz", Some "/var/lib/libvirt/boot/initrd.img",
         Some "method=http://example.org/tree"), S w);
  treemedia_cleanup := fun _ _ w => (Ok tt, S w);
  disk_path_props := fun d _ =>
    match path d with
    | Some _ => mkPathProps (Some "file") (Some "qemu") (Some "raw")
    | None => mkPathProps None None None
    end;
  disk_validate := fun _ w => (Ok tt, w);
  disk_build_storage := fun d w =>
    (Ok (if storage_was_created d then None else
         match device d, vol_object d with
         | DEVICE_DISK, None => Some None
         | _, _ => None
         end), S w);
  guest_validate_name := fun n w =>
    if (n =? "")%string then (Raise (mkExn ValueError "Guest name is required"), w)
    else (Ok tt, w);
  guest_set_defaults := fun g _ => (Ok tt, g);
  guest_get_xml := fun g =>
    Ok ("<domain><name>" ++ name g ++ "</name><os><kernel>" ++
        str_of (kernel (os g)) ++ "</kernel><boot>" ++ join "," (bootorder (os g)) ++
        "</boot></os><on_reboot>" ++ str_of (on_reboot g) ++
        "</on_reboot></domain>")%string;
  conn_defineXML := fun _ w => (Ok (DomainHandle w), S w);
  conn_createXML := fun _ _ w => (Ok (DomainHandle w), S w);
  domain_create := fun _ w => answer (fail_create sw) "internal error: boot failed" tt w;
  domain_undefine := fun _ w => answer (fail_undefine sw) "domain is busy" tt w;
  domain_setAutostart := fun _ _ w =>
    match fail_autostart sw with
    | Some e => (Raise e, S w)
    | None => (Ok tt, S w)
    end;
  domain_XMLDesc := fun _ _ w => (Ok "<domain/>"%string, w);
  is_error_nosupport := fun e => contains "not supported" (exn_msg e);
  meter_start := fun _ w => (Ok tt, w);
  meter_end := fun w => (Ok tt, w);
  vol_delete := fun _ w => answer (fail_delete sw) "volume in use" tt w;
  os_unlink := fun _ w => (Ok tt, S w);
  environ_has := fun _ _ => false
|}.

Definition all_fine : Switches := mkSwitches false false None false.

Definition harddisk (id : nat) (p : string) (created : bool) : DeviceDisk :=
  mkDeviceDisk id DEVICE_DISK (Some p) (mkPathProps (Some "file") None None)
    None created None.

Definition volume_disk (id : nat) (p vol : string) : DeviceDisk :=
  mkDeviceDisk id DEVICE_DISK (Some p) (mkPathProps (Some "volume") None None)
    None true (Some vol).

Definition cdrom_drive (id : nat) : DeviceDisk :=
  mkDeviceDisk id DEVICE_CDROM None (mkPathProps None None None) None false None.

Definition a_guest (bo : list string) (disks : list DeviceDisk) : Guest :=
  mkGuest "vm1" "kvm" (mkDomainOs bo None None None false) (Some "restart")
    disks [] false.

Definition blank : Installer :=
  mkInstaller false [] false None None None None false None None.

Definition cdrom_installer : Installer :=
  mkInstaller false [] true (Some "cdrom") None None None false
    (Some "/isos/install.iso") None.

Definition tree_installer : Installer :=
  mkInstaller false ["console=ttyS0"] false None None None None false None
    (Some (mkTreeMedia "http://example.org/tree" None)).

Definition state (sw : Switches) (i : Installer) (g : Guest)
    : @State (collaborators sw) :=
  @mkState (collaborators sw) i g 0 [] 100.

End Demo.

(** * Properties *)

Module PyFacts.

Lemma prefix_app (s t : string) : prefix s (s ++ t) = true.
Proof.
  induction s as [|c s IH]; simpl.
  - destruct t; reflexivity.
  - destruct (ascii_dec c c) as [_|N]; [exact IH | now elim N].
Qed.

Lemma contains_here (sub s : string) : prefix sub s = true -> contains sub s = true.
Proof.
  intros H. destruct s; cbn [contains]; rewrite H; reflexivity.
Qed.

Lemma contains_app (a sub b : string) : contains sub (a ++ sub ++ b) = true.
Proof.
  induction a as [|c a IH].
  - cbn [append]. apply contains_here, prefix_app.
  - cbn [append contains]. rewrite IH. apply orb_true_r.
Qed.

Lemma append_assoc (a b c : string) : ((a ++ b) ++ c)%string = (a ++ b ++ c)%string.
Proof.
  induction a as [|x a IH]; cbn [append]; [reflexivity | rewrite IH; reflexivity].
Qed.

End PyFacts.

Module TestUrlsFacts.
Import TestUrls PyFacts.

Section Retry.

Variable Net : Type.
Variable Store : Type.
Variable getDistroStore : Net -> res Store * Net.

(** The log of any run of the loop: a block per transient failure, then
    the attempt that ended it, if one did. *)
Lemma storeForDistro_loop_log (range : list nat) :
  forall (net : Net) (log : list (TestEvent Store)),
  exists (es : list Exn) (last : list (TestEvent Store)),
    snd (snd (_storeForDistro_loop Net Store getDistroStore range net log)) =
      log ++ flat_map (retry_block Store) es ++ last /\
    Forall (fun e => is_proxy_error e = true) es /\
    ((exists store, last = [Attempt (Ok store)] /\
        fst (_storeForDistro_loop Net Store getDistroStore range net log) = Ok store /\
        length es < length range) \/
     (exists e, last = [Attempt (Raise e)] /\ is_proxy_error e = false /\
        fst (_storeForDistro_loop Net Store getDistroStore range net log) = Raise e /\
        length es < length range) \/
     (last = [] /\ length es = length range /\
        fst (_storeForDistro_loop Net Store getDistroStore range net log) =
          Raise (mkExn RuntimeError "No active exception to reraise"))).
Proof.
  induction range as [|i range IH]; intros net log.
  - exists [], []. cbn. rewrite app_nil_r. repeat split; auto.
  - cbn [_storeForDistro_loop].
    destruct (getDistroStore net) as [[store|e] net'] eqn:E.
    + exists [], [Attempt (Ok store)]. cbn. repeat split; auto.
      left. exists store. repeat split; auto. lia.
    + destruct (is_proxy_error e) eqn:P.
      * fold (retry_block Store e).
        destruct (IH net' (log ++ retry_block Store e))
          as (es & last & Hlog & Hall & Hend).
        exists (e :: es), last.
        rewrite Hlog. cbn [flat_map]. rewrite <- !app_assoc.
        split; [reflexivity|].
        split; [constructor; assumption|].
        cbn [length].
        destruct Hend as [(st & ? & ? & ?)|[(e' & ? & ? & ? & ?)|(? & ? & ?)]].
        -- left. exists st. repeat split; auto. lia.
        -- right; left. exists e'. repeat split; auto. lia.
        -- right; right. repeat split; auto.
      * exists [], [Attempt (Raise e)]. cbn. repeat split; auto.
        right; left. exists e. repeat split; auto. lia.
Qed.

(** The shape of the log, whatever the network answers. *)
Lemma storeForDistro_log_shape :
  forall (net : Net) (log : list (TestEvent Store)),
  exists (es : list Exn) (last : list (TestEvent Store)),
    snd (snd (_storeForDistro Net Store getDistroStore net log)) =
      log ++ flat_map (retry_block Store) es ++ last /\
    Forall (fun e => contains "502" (exn_msg e) = true) es /\
    length es <= 10 /\
    ((exists store, last = [Attempt (Ok store)] /\ length es < 10 /\
        fst (_storeForDistro Net Store getDistroStore net log) = Ok store) \/
     (exists e, last = [Attempt (Raise e)] /\ length es < 10 /\
        contains "502" (exn_msg e) = false /\
        fst (_storeForDistro Net Store getDistroStore net log) = Raise e) \/
     (last = [] /\ length es = 10 /\
        fst (_storeForDistro Net Store getDistroStore net log) =
          Raise (mkExn RuntimeError "No active exception to reraise"))).
Proof.
  intros net log. unfold _storeForDistro.
  destruct (storeForDistro_loop_log (seq 0 10) net log) as (es & last & Hlog & Hall & Hend).
  rewrite length_seq in Hend.
  exists es, last. split; [exact Hlog|]. split; [exact Hall|].
  destruct Hend as [(st & ? & ? & ?)|[(e & ? & ? & ? & ?)|(? & ? & ?)]].
  - split; [lia|]. left. exists st. auto.
  - split; [lia|]. right; left. exists e. auto.
  - split; [lia|]. right; right. auto.
Qed.

Lemma flat_map_seq_shift {A : Type} (f : nat -> list A) (k : nat) :
  forall a, flat_map f (seq (S a) k) = flat_map (fun j => f (S j)) (seq a k).
Proof.
  induction k as [|k IH]; intros a; cbn [seq flat_map]; [reflexivity|].
  rewrite IH. reflexivity.
Qed.

Lemma retry_log_step (k : nat) (net : Net) :
  retry_log Net Store getDistroStore (S k) net =
    match fst (getDistroStore net) with
    | Raise e => retry_block Store e
    | Ok _ => []
    end ++ retry_log Net Store getDistroStore k (snd (getDistroStore net)).
Proof.
  unfold retry_log. cbn [seq flat_map]. rewrite flat_map_seq_shift. reflexivity.
Qed.

(** The loop run against the answers of the network: the first answer that
    is not transient ends it. *)
Lemma storeForDistro_loop_ends (range : list nat) :
  forall (net : Net) (log : list (TestEvent Store)) (k : nat),
    k < length range ->
    (forall j, j < k ->
       transient Store (answer Net Store getDistroStore j net) = true) ->
    transient Store (answer Net Store getDistroStore k net) = false ->
    _storeForDistro_loop Net Store getDistroStore range net log =
      (answer Net Store getDistroStore k net,
       (net_after Net Store getDistroStore (S k) net,
        log ++ retry_log Net Store getDistroStore k net ++
        [Attempt (answer Net Store getDistroStore k net)])).
Proof.
  induction range as [|i range IH]; intros net log k Hk Hbefore Hat;
    [cbn in Hk; lia|].
  cbn [_storeForDistro_loop]. destruct k as [|k].
  - unfold answer in *. cbn [net_after] in *. unfold retry_log. cbn [seq flat_map app].
    destruct (getDistroStore net) as [[store|e] net']; cbn [fst snd] in *.
    + reflexivity.
    + cbn [transient] in Hat. rewrite Hat. reflexivity.
  - pose proof (Hbefore 0 (Nat.lt_0_succ k)) as H0.
    rewrite retry_log_step.
    unfold answer in H0, Hat |- *. cbn [net_after] in H0, Hat |- *.
    destruct (getDistroStore net) as [[store|e] net'] eqn:E; cbn [fst snd] in *;
      [discriminate H0|].
    cbn [transient] in H0. rewrite H0. fold (retry_block Store e).
    rewrite (IH net' (log ++ retry_block Store e) k).
    + unfold answer. rewrite <- !app_assoc. reflexivity.
    + cbn [length] in Hk. lia.
    + intros j Hj. pose proof (Hbefore (S j) (proj1 (Nat.succ_lt_mono j k) Hj)) as X.
      unfold answer in X |- *. cbn [net_after] in X. rewrite E in X. exact X.
    + unfold answer. exact Hat.
Qed.

(** The loop against a network that keeps answering with transient
    failures. *)
Lemma storeForDistro_loop_exhausted (range : list nat) :
  forall (net : Net) (log : list (TestEvent Store)),
    (forall j, j < length range ->
       transient Store (answer Net Store getDistroStore j net) = true) ->
    _storeForDistro_loop Net Store getDistroStore range net log =
      (Raise (mkExn RuntimeError "No active exception to reraise"),
       (net_after Net Store getDistroStore (length range) net,
        log ++ retry_log Net Store getDistroStore (length range) net)).
Proof.
  induction range as [|i range IH]; intros net log Hall.
  - cbn. rewrite app_nil_r. reflexivity.
  - cbn [_storeForDistro_loop length].
    pose proof (Hall 0 (Nat.lt_0_succ _)) as H0.
    rewrite retry_log_step.
    unfold answer in H0. cbn [net_after] in H0 |- *.
    destruct (getDistroStore net) as [[store|e] net'] eqn:E; cbn [fst snd] in *;
      [discriminate H0|].
    cbn [transient] in H0. rewrite H0. fold (retry_block Store e).
    rewrite (IH net' (log ++ retry_block Store e)).
    + rewrite <- !app_assoc. reflexivity.
    + intros j Hj. cbn [length] in Hall.
      pose proof (Hall (S j) (proj1 (Nat.succ_lt_mono j _) Hj)) as X.
      unfold answer in X |- *. cbn [net_after] in X. rewrite E in X. exact X.
Qed.

(** C4. [_storeForDistro] calls [getDistroStore] again only after an
    answer that is an exception whose message contains "502", and sleeps
    500 ms after each such answer. The first answer of another kind, if it
    comes within the first 10 calls, ends the loop at once: a store is
    returned, any other exception is raised as it is, and nothing is slept
    or called after it. After 10 transient failures no further call is made
    and the bare raise ends the helper. The results, the log and the
    network are those of the calls actually made. *)
Theorem storeForDistro_retry_policy :
  (forall (net : Net) (log : list (TestEvent Store)) (k : nat),
     k < 10 ->
     (forall j, j < k ->
        transient Store (answer Net Store getDistroStore j net) = true) ->
     transient Store (answer Net Store getDistroStore k net) = false ->
     _storeForDistro Net Store getDistroStore net log =
       (answer Net Store getDistroStore k net,
        (net_after Net Store getDistroStore (S k) net,
         log ++ retry_log Net Store getDistroStore k net ++
         [Attempt (answer Net Store getDistroStore k net)]))) /\
  (forall (net : Net) (log : list (TestEvent Store)),
     (forall j, j < 10 ->
        transient Store (answer Net Store getDistroStore j net) = true) ->
     _storeForDistro Net Store getDistroStore net log =
       (Raise (mkExn RuntimeError "No active exception to reraise"),
        (net_after Net Store getDistroStore 10 net,
         log ++ retry_log Net Store getDistroStore 10 net))).
Proof.
  split.
  - intros net log k Hk Hbefore Hat. unfold _storeForDistro.
    apply storeForDistro_loop_ends; [rewrite length_seq; exact Hk | exact Hbefore | exact Hat].
  - intros net log Hall. unfold _storeForDistro.
    pose proof (storeForDistro_loop_exhausted (seq 0 10) net log) as X.
    rewrite length_seq in X. apply X. exact Hall.
Qed.

End Retry.

(** C4 at work: two proxy errors, then the store. *)
Lemma storeForDistro_retry_policy_witness :
  let e := mkExn OtherException "HTTP Error 502: Bad Gateway" in
  _storeForDistro nat string flaky_mirror 0 [] =
    (Ok "fedora30",
     (3, retry_block string e ++ retry_block string e ++ [Attempt (Ok "fedora30")])).
Proof.
  intros e.
  apply (proj1 (storeForDistro_retry_policy nat string flaky_mirror) 0 [] 2).
  - lia.
  - intros j Hj. destruct j as [|[|j]]; [reflexivity | reflexivity | lia].
  - reflexivity.
Defined.

(** *** Detection of a location that cannot be reached *)

Lemma matches_unreachable (f : Family) (fetcher : Fetcher) :
  unreachable fetcher -> matches f fetcher = false.
Proof.
  intros H. unfold matches. induction (markers f) as [|m l IH]; cbn.
  - reflexivity.
  - rewrite H, IH. reflexivity.
Qed.

Lemma scan_unreachable (families : list Family) (fetcher : Fetcher)
    (shape : GuestShape) :
  unreachable fetcher ->
  scan families fetcher shape = Raise (DetectionError fetcher).
Proof.
  intros H. induction families as [|f l IH]; cbn [scan].
  - reflexivity.
  - rewrite (matches_unreachable f fetcher H). exact IH.
Qed.

Lemma DetectionError_hint (fetcher : Fetcher) :
  contains "maybe you mistyped" (exn_msg (DetectionError fetcher)) = true.
Proof.
  unfold DetectionError, hint. cbn [exn_msg].
  rewrite <- (append_assoc (location fetcher)), <- append_assoc.
  apply contains_app.
Qed.

(** C9. Detection on a location where no file can be found fails, whatever
    the families and the guest shape (variant asserted or not), with the
    detection error (a [ValueError]), and its message contains
    "maybe you mistyped". *)
Theorem detect_unreachable_hint :
  forall (families : list Family) (fetcher : Fetcher) (shape : GuestShape),
    unreachable fetcher ->
    exists e : Exn,
      detect families fetcher shape = Raise e /\
      exn_class e = ValueError /\
      contains "maybe you mistyped" (exn_msg e) = true.
Proof.
  intros families fetcher shape H.
  exists (DetectionError fetcher). split; [|split].
  - unfold detect. destruct (os_variant_hint shape); apply scan_unreachable; exact H.
  - reflexivity.
  - apply DetectionError_hint.
Qed.

(** C9 at work: the URL of [test001BadURL]. *)
Lemma detect_unreachable_hint_witness :
  exists e : Exn,
    detect [mkFamily "fedora" ["fedora30"] [".treeinfo"]
              (fun _ _ => Raise (mkExn ValueError "no kernel"))]
      (mkFetcher badurl (fun _ => false)) hvmguest = Raise e /\
    exn_class e = ValueError /\
    contains "maybe you mistyped" (exn_msg e) = true.
Proof.
  apply detect_unreachable_hint. intros relpath. reflexivity.
Defined.

(** [test001BadURL] end to end: one attempt, no retry, the hinted error. *)
Lemma test001BadURL (families : list Family) :
  let fetcher := mkFetcher badurl (fun _ => false) in
  _storeForDistro unit DistroDescriptor
    (fun net => (detect families fetcher hvmguest, net)) tt [] =
    (Raise (DetectionError fetcher), (tt, [Attempt (Raise (DetectionError fetcher))])).
Proof.
  intros fetcher. unfold _storeForDistro, detect. cbn [hvmguest os_variant_hint].
  rewrite scan_unreachable by (intros relpath; reflexivity).
  reflexivity.
Qed.

(** *** The test data and the time spent retrying *)

Lemma distroclass_for_name_ok (name : string) :
  is_Ok (_distroclass_for_name name) =
    existsb (fun k => contains k name) distro_keywords.
Proof.
  unfold _distroclass_for_name, distro_keywords. cbn [existsb].
  repeat match goal with
         | |- context [contains ?k name] =>
             lazymatch k with
             | String _ _ => destruct (contains k name); cbn [orb is_Ok]; try reflexivity
             end
         end.
Qed.

Lemma find_arch_known (url : string) :
  str_in (_find_arch url) ["i686"; "aarch64"; "ppc64le"; "s390x"; "x86_64"] = true.
Proof.
  unfold _find_arch.
  repeat match goal with
         | |- context [if ?b then _ else _] => destruct b
         end; reflexivity.
Qed.

(** X1. [_URLTestData.__init__] succeeds exactly when the test name contains
    one of the nine distro keywords. It then keeps name and url, has one of
    the five known architectures, and the class [_distroclass_for_name]
    gives; otherwise it raises a [RuntimeError] whose message quotes the
    name. *)
Theorem urltestdata_init_spec :
  forall (name url : string) (detectdistro : option string)
         (testxen testshortcircuit : bool) (kernelarg kernelregex : option string),
    is_Ok (URLTestData.__init__ name url detectdistro testxen testshortcircuit
             kernelarg kernelregex) =
      existsb (fun k => contains k name) distro_keywords /\
    match URLTestData.__init__ name url detectdistro testxen testshortcircuit
            kernelarg kernelregex with
    | Ok d =>
        URLTestData.name d = name /\ URLTestData.url d = url /\
        str_in (URLTestData.arch d)
          ["i686"; "aarch64"; "ppc64le"; "s390x"; "x86_64"] = true /\
        _distroclass_for_name name = Ok (URLTestData.distroclass d)
    | Raise e =>
        exn_class e = RuntimeError /\ contains name (exn_msg e) = true
    end.
Proof.
  intros name url detectdistro testxen testshortcircuit kernelarg kernelregex.
  pose proof (distroclass_for_name_ok name) as Hok.
  unfold URLTestData.__init__.
  destruct (_distroclass_for_name name) as [c|e] eqn:E.
  - split; [exact Hok|]. cbn. repeat split. apply find_arch_known.
  - split; [exact Hok|].
    unfold _distroclass_for_name in E.
    repeat match type of E with
           | (if ?b then _ else _) = _ => destruct b; [discriminate E|]
           end.
    inversion E; subst. cbn [exn_class exn_msg]. split; [reflexivity|].
    exact (contains_app "name=" name
             " didn't map to any distro class. Extend _distroclass_for_name").
Qed.

(** X2. [_sanitize_osdict_name] answers [None] exactly for [None], "none"
    and "None", and returns every other name unchanged; so it never answers
    "none" or "None", and applying it twice is applying it once. *)
Theorem sanitize_osdict_name_spec :
  forall detectdistro : option string,
    (_sanitize_osdict_name detectdistro = None <->
     detectdistro = None \/ detectdistro = Some "none" \/ detectdistro = Some "None") /\
    (_sanitize_osdict_name detectdistro <> None ->
     _sanitize_osdict_name detectdistro = detectdistro) /\
    _sanitize_osdict_name (_sanitize_osdict_name detectdistro) =
      _sanitize_osdict_name detectdistro.
Proof.
  intros [d|]; unfold _sanitize_osdict_name.
  - destruct (d =? "none")%string eqn:E1.
    { apply String.eqb_eq in E1. subst d. cbn. repeat split; auto;
        try (intros H; now elim H). }
    destruct (d =? "None")%string eqn:E2.
    { apply String.eqb_eq in E2. subst d. cbn. repeat split; auto;
        try (intros H; now elim H). }
    cbn [orb]. rewrite E1, E2. cbn [orb].
    apply String.eqb_neq in E1. apply String.eqb_neq in E2.
    repeat split; try discriminate; try reflexivity;
      try (intros [H|[H|H]];
           [discriminate H | inversion H; congruence | inversion H; congruence]).
  - repeat split; auto; try (intros H; now elim H).
Qed.

(** X2 at work: a real variant name comes back as it is. *)
Lemma sanitize_osdict_name_spec_witness :
  _sanitize_osdict_name (Some "fedora30") = Some "fedora30".
Proof.
  apply (proj1 (proj2 (sanitize_osdict_name_spec (Some "fedora30")))).
  discriminate.
Defined.

Section RetryCost.

Variable Net : Type.
Variable Store : Type.
Variable getDistroStore : Net -> res Store * Net.

Lemma slept_app (a b : list (TestEvent Store)) : slept (a ++ b) = slept a + slept b.
Proof.
  induction a as [|ev a IH]; cbn; [reflexivity|].
  fold (slept (a ++ b)). fold (slept a). rewrite IH. destruct ev; lia.
Qed.

Lemma attempts_app (a b : list (TestEvent Store)) :
  attempts Store (a ++ b) = attempts Store a + attempts Store b.
Proof.
  unfold attempts. rewrite filter_app, length_app. reflexivity.
Qed.

Lemma retry_blocks_cost (es : list Exn) :
  slept (flat_map (retry_block Store) es) = 500 * length es /\
  attempts Store (flat_map (retry_block Store) es) = length es.
Proof.
  induction es as [|e es [IH1 IH2]]; [split; reflexivity|].
  cbn [flat_map length]. rewrite slept_app, attempts_app, IH1, IH2.
  split; [cbn [retry_block slept fold_right]; lia | reflexivity].
Qed.

Lemma retry_log_cost (k : nat) :
  forall net : Net,
    (forall j, j < k ->
       transient Store (answer Net Store getDistroStore j net) = true) ->
    slept (retry_log Net Store getDistroStore k net) = 500 * k /\
    attempts Store (retry_log Net Store getDistroStore k net) = k.
Proof.
  induction k as [|k IH]; intros net Hall; [split; reflexivity|].
  rewrite retry_log_step, slept_app, attempts_app.
  pose proof (Hall 0 (Nat.lt_0_succ k)) as H0. unfold answer in H0. cbn [net_after] in H0.
  destruct (IH (snd (getDistroStore net))) as [IH1 IH2].
  { intros j Hj. exact (Hall (S j) (proj1 (Nat.succ_lt_mono j k) Hj)). }
  rewrite IH1, IH2.
  destruct (fst (getDistroStore net)) as [store|e]; [discriminate H0|].
  split; [cbn [retry_block slept fold_right]; lia | cbn; lia].
Qed.

(** X3. The time [_storeForDistro] spends: when the answer to call number
    [k] (from 0, [k < 10]) is the first that is not a transient failure,
    [k + 1] attempts are made and 500 ms are slept for each of the [k]
    failures before it, and not after it; when the first ten answers are
    all transient failures, ten attempts are made and 5000 ms slept. So
    there are always between one and ten attempts and at most five seconds
    of sleep. *)
Theorem storeForDistro_cost :
  (forall (net : Net) (log : list (TestEvent Store)) (k : nat),
     k < 10 ->
     (forall j, j < k ->
        transient Store (answer Net Store getDistroStore j net) = true) ->
     transient Store (answer Net Store getDistroStore k net) = false ->
     let log' := snd (snd (_storeForDistro Net Store getDistroStore net log)) in
     slept log' = slept log + 500 * k /\
     attempts Store log' = attempts Store log + k + 1) /\
  (forall (net : Net) (log : list (TestEvent Store)),
     (forall j, j < 10 ->
        transient Store (answer Net Store getDistroStore j net) = true) ->
     let log' := snd (snd (_storeForDistro Net Store getDistroStore net log)) in
     slept log' = slept log + 5000 /\
     attempts Store log' = attempts Store log + 10) /\
  (forall (net : Net) (log : list (TestEvent Store)),
     let log' := snd (snd (_storeForDistro Net Store getDistroStore net log)) in
     slept log' <= slept log + 5000 /\
     attempts Store log < attempts Store log' <= attempts Store log + 10).
Proof.
  split; [|split].
  - intros net log k Hk Hbefore Hat log'. subst log'. unfold _storeForDistro.
    rewrite (storeForDistro_loop_ends Net Store getDistroStore (seq 0 10) net log k);
      [|rewrite length_seq; exact Hk | exact Hbefore | exact Hat].
    cbn [snd]. rewrite !slept_app, !attempts_app.
    destruct (retry_log_cost k net Hbefore) as [Hs Ha]. rewrite Hs, Ha.
    split; [cbn; lia | cbn; lia].
  - intros net log Hall log'. subst log'. unfold _storeForDistro.
    pose proof (storeForDistro_loop_exhausted Net Store getDistroStore
                  (seq 0 10) net log) as X.
    rewrite length_seq in X. rewrite (X Hall). cbn [snd].
    rewrite !slept_app, !attempts_app.
    destruct (retry_log_cost 10 net Hall) as [Hs Ha]. rewrite Hs, Ha.
    split; lia.
  - intros net log log'. subst log'. unfold _storeForDistro.
    destruct (storeForDistro_loop_log Net Store getDistroStore (seq 0 10) net log)
      as (es & last & Hlog & _ & Hend).
    rewrite length_seq in Hend. rewrite Hlog.
    destruct (retry_blocks_cost es) as [Hs Ha].
    rewrite !slept_app, !attempts_app, Hs, Ha.
    destruct Hend as [(st & L & _ & Hk)|[(e & L & _ & _ & Hk)|(L & Hk & _)]];
      subst last; cbn; lia.
Qed.

End RetryCost.

(** X3 at work: two proxy errors cost one second. *)
Lemma storeForDistro_cost_witness :
  let log' := snd (snd (_storeForDistro nat string flaky_mirror 0 [])) in
  slept log' = 1000 /\ attempts string log' = 3.
Proof.
  intros log'.
  apply (proj1 (storeForDistro_cost nat string flaky_mirror) 0 [] 2).
  - lia.
  - intros j Hj. destruct j as [|[|j]]; [reflexivity | reflexivity | lia].
  - reflexivity.
Defined.

End TestUrlsFacts.

Module InstallerFacts.
Import Installer PyFacts.

(** *** The boot order *)

Lemma build_boot_order_loop_spec (disks : list DeviceDisk) (bo : list string) :
  _build_boot_order_loop disks bo =
    if existsb is_DEVICE_DISK disks && negb (str_in "hd" bo) then bo ++ ["hd"]
    else bo.
Proof.
  induction disks as [|d disks IH]; cbn [_build_boot_order_loop existsb].
  - reflexivity.
  - destruct (is_DEVICE_DISK d); cbn [orb andb].
    + destruct (str_in "hd" bo); reflexivity.
    + exact IH.
Qed.

(** C2. The computed boot order starts with the requested device; "hd"
    follows it exactly when the guest has a disk whose device is DISK and
    the requested device is not "hd" itself. One hard disk and "cdrom" give
    [cdrom, hd]; no disk and "network" give [network]. *)
Theorem build_boot_order_spec :
  (forall (g : Guest) (bootdev : string),
     _build_boot_order g bootdev =
       bootdev ::
         (if existsb is_DEVICE_DISK (devices_disk g) && negb (bootdev =? "hd")%string
          then ["hd"] else [])) /\
  (forall (g : Guest) (d : DeviceDisk),
     _build_boot_order (set_devices_disk [set_device DEVICE_DISK d] g) "cdrom" =
       ["cdrom"; "hd"]) /\
  (forall g : Guest,
     _build_boot_order (set_devices_disk [] g) "network" = ["network"]).
Proof.
  split; [|split].
  - intros g bootdev. unfold _build_boot_order.
    rewrite build_boot_order_loop_spec. cbn [str_in].
    rewrite orb_false_r, String.eqb_sym.
    destruct (existsb is_DEVICE_DISK (devices_disk g) && negb (bootdev =? "hd")%string);
      reflexivity.
  - intros g d. reflexivity.
  - intros g. reflexivity.
Qed.

Section Facts.

Context {C : Collaborators}.

(** *** Construction *)

(** C6. A kernel without an initrd, an initrd without a kernel, or either
    of them without a location makes [__init__] raise [ValueError] before
    it has called anything: the world and the trace are as they were. *)
Theorem init_rejects_bad_media_pairing :
  forall (cdrom location install_bootdev location_kernel location_initrd : option string)
         (s : State),
    (truthy location_kernel = true /\ truthy location_initrd = false) \/
    (truthy location_kernel = false /\ truthy location_initrd = true) \/
    ((truthy location_kernel = true \/ truthy location_initrd = true) /\
     truthy location = false) ->
    exists (e : Exn) (s' : State),
      __init__ cdrom location install_bootdev location_kernel location_initrd s =
        (Raise e, s') /\
      exn_class e = ValueError /\
      world s' = world s /\ trace s' = trace s /\ guest s' = guest s.
Proof.
  intros cdrom location bootdev lk li s H.
  unfold __init__, bind, modify_self, raise, ret.
  destruct (truthy lk) eqn:K, (truthy li) eqn:I, (truthy location) eqn:L; cbn;
    try (eexists; eexists; repeat split; reflexivity);
    exfalso; intuition discriminate.
Qed.

(** *** Domain creation *)

(** C3. In the define-then-start path, when [defineXML] gave a domain and
    its [create()] raises, [undefine()] is called on that domain, and
    whatever that call does, the exception of [create()] is what
    [_manual_transient_create] raises. *)
Theorem manual_transient_create_undefines :
  forall (install_xml : option string) (final_xml : string) (s : State)
         (d : Domain) (w1 w2 : World) (e : Exn),
    conn_defineXML (or_else install_xml final_xml) (world s) = (Ok d, w1) ->
    domain_create d w1 = (Raise e, w2) ->
    _manual_transient_create install_xml final_xml true s =
      (Raise e,
       mkState (self s) (guest s) (snd (domain_undefine d w2))
         (trace s ++ [EvDefineXML (or_else install_xml final_xml) (Ok d);
                      EvDomainCreate d (Raise e);
                      EvDomainUndefine d (fst (domain_undefine d w2))])
         (next_obj s)).
Proof.
  intros install_xml final_xml s d w1 w2 e Hdef Hcreate.
  unfold _manual_transient_create, bind, try_except, call, except_Exception, raise, ret.
  cbn. rewrite Hdef. cbn. rewrite Hcreate. cbn.
  destruct (domain_undefine d w2) as [[[]|e'] w3]; cbn;
    rewrite <- !app_assoc; reflexivity.
Qed.

(** *** Relations that every step of a method keeps *)

Section Preserves.

Variable R : State -> State -> Prop.
Hypothesis R_refl : forall s, R s s.
Hypothesis R_trans : forall a b c, R a b -> R b c -> R a c.

Lemma preserves_ret {A : Type} (a : A) : preserves R (ret a).
Proof. intros s r s' H. inversion H; subst. apply R_refl. Qed.

Lemma preserves_raise {A : Type} (e : Exn) : preserves R (@raise _ A e).
Proof. intros s r s' H. inversion H; subst. apply R_refl. Qed.

Lemma preserves_get : preserves R get.
Proof. intros s r s' H. inversion H; subst. apply R_refl. Qed.

Lemma preserves_get_xml : preserves R get_xml.
Proof. intros s r s' H. inversion H; subst. apply R_refl. Qed.

Lemma preserves_bind {A B : Type} (m : M A) (f : A -> M B) :
  preserves R m -> (forall a, preserves R (f a)) -> preserves R (bind m f).
Proof.
  intros Hm Hf s r s' H. unfold bind in H.
  destruct (m s) as [[a|e] s1] eqn:E.
  - eapply R_trans; [eapply Hm; exact E | eapply Hf; exact H].
  - inversion H; subst. eapply Hm; exact E.
Qed.

Lemma preserves_try_finally {A : Type} (body : M A) (fin : M unit) :
  preserves R body -> preserves R fin -> preserves R (try_finally body fin).
Proof.
  intros Hb Hf s r s' H. unfold try_finally in H.
  destruct (body s) as [rb s1] eqn:E.
  destruct (fin s1) as [[u|e] s2] eqn:F; inversion H; subst;
    (eapply R_trans; [eapply Hb; exact E | eapply Hf; exact F]).
Qed.

Lemma preserves_try_except {A : Type} (body : M A) (catches : Exn -> bool)
    (handler : Exn -> M A) :
  preserves R body -> (forall e, preserves R (handler e)) ->
  preserves R (try_except body catches handler).
Proof.
  intros Hb Hh s r s' H. unfold try_except in H.
  destruct (body s) as [[a|e] s1] eqn:E.
  - inversion H; subst. eapply Hb; exact E.
  - destruct (catches e).
    + eapply R_trans; [eapply Hb; exact E | eapply Hh; exact H].
    + inversion H; subst. eapply Hb; exact E.
Qed.

Lemma preserves_for_each {A : Type} (l : list A) (body : A -> M unit) :
  (forall x, preserves R (body x)) -> preserves R (for_each l body).
Proof.
  intros Hb. induction l as [|x l IH]; cbn [for_each].
  - apply preserves_ret.
  - apply preserves_bind; [apply Hb | intros _; exact IH].
Qed.

Lemma preserves_read_local {A : Type} (var : string) (v : option A) :
  preserves R (read_local var v).
Proof. destruct v; [apply preserves_ret | apply preserves_raise]. Qed.

End Preserves.

Lemma same_boot_config_refl (s : State) : same_boot_config s s.
Proof. reflexivity. Qed.

Lemma same_boot_config_trans (a b c : State) :
  same_boot_config a b -> same_boot_config b c -> same_boot_config a c.
Proof. unfold same_boot_config. intros H1 H2. rewrite H2. exact H1. Qed.

Lemma emits_refl (P : Event -> bool) (s : State) : emits P s s.
Proof. exists []. rewrite app_nil_r. split; reflexivity. Qed.

Lemma emits_trans (P : Event -> bool) (a b c : State) :
  emits P a b -> emits P b c -> emits P a c.
Proof.
  intros (e1 & H1 & F1) (e2 & H2 & F2). exists (e1 ++ e2).
  rewrite H2, H1, app_assoc. split; [reflexivity|].
  rewrite forallb_app, F1, F2. reflexivity.
Qed.

Lemma emits_same_trace (P : Event -> bool) (s s' : State) :
  trace s' = trace s -> emits P s s'.
Proof. intros H. exists []. rewrite app_nil_r. split; [exact H | reflexivity]. Qed.

Lemma emits_one (P : Event -> bool) (s s' : State) (ev : Event) :
  trace s' = trace s ++ [ev] -> P ev = true -> emits P s s'.
Proof. intros H HP. exists [ev]. split; [exact H|]. cbn. rewrite HP. reflexivity. Qed.

Lemma emits_call (P : Event -> bool) {A : Type} (ev : res A -> Event)
    (f : World -> res A * World) :
  (forall r, P (ev r) = true) -> preserves (emits P) (call ev f).
Proof.
  intros HP s r s' H. unfold call in H.
  destruct (f (world s)) as [r0 w]. inversion H; subst.
  eapply emits_one; [reflexivity | apply HP].
Qed.

Lemma emits_emit (P : Event -> bool) (ev : Event) :
  P ev = true -> preserves (emits P) (emit ev).
Proof.
  intros HP s r s' H. inversion H; subst. eapply emits_one; [reflexivity | exact HP].
Qed.

Lemma emits_modify_self (P : Event -> bool) (f : Installer -> Installer) :
  preserves (emits P) (modify_self f).
Proof. intros s r s' H. inversion H; subst. apply emits_same_trace. reflexivity. Qed.

Lemma emits_modify_guest (P : Event -> bool) (f : Guest -> Guest) :
  preserves (emits P) (modify_guest f).
Proof. intros s r s' H. inversion H; subst. apply emits_same_trace. reflexivity. Qed.

Lemma emits_new_DeviceDisk (P : Event -> bool) : preserves (emits P) new_DeviceDisk.
Proof. intros s r s' H. inversion H; subst. apply emits_same_trace. reflexivity. Qed.

Lemma emits_call_set_defaults (P : Event -> bool) :
  preserves (emits P) call_set_defaults.
Proof.
  intros s r s' H. unfold call_set_defaults in H.
  destruct (guest_set_defaults (guest s) (world s)). inversion H; subst.
  apply emits_same_trace. reflexivity.
Qed.

(** Walks through a method: binds, handlers, branches, and the calls, whose
    events are checked against [P] by computation. *)
Ltac emits_walk :=
  repeat first
    [ apply preserves_ret; [apply emits_refl]
    | apply preserves_raise; [apply emits_refl]
    | apply preserves_get; [apply emits_refl]
    | apply preserves_get_xml; [apply emits_refl]
    | apply preserves_read_local; [apply emits_refl]
    | apply emits_modify_self
    | apply emits_modify_guest
    | apply emits_new_DeviceDisk
    | apply emits_call_set_defaults
    | apply emits_call; intros ?; reflexivity
    | apply emits_emit; reflexivity
    | apply preserves_bind; [apply emits_trans | | intros ?]
    | apply preserves_try_finally; [apply emits_trans | | ]
    | apply preserves_try_except; [apply emits_trans | | intros ?]
    | apply preserves_for_each; [apply emits_refl | apply emits_trans | intros ?]
    | match goal with
      | |- preserves _ (match ?x with _ => _ end) => destruct x
      | |- preserves _ (let '(_, _) := ?x in _) => destruct x
      end ].

Ltac unfold_methods :=
  unfold set_install_defaults, _add_install_cdrom_device, _prepare, _build_xml,
    _get_install_xml, _prepare_get_install_xml, _finish_get_install_xml,
    _alter_bootconfig, _remove_install_cdrom_media, _create_guest,
    _manual_transient_create, _cleanup, logging.

Lemma emits_build_storage_loop (P : Event -> bool) :
  (forall id r, P (EvBuildStorage id r) = true) ->
  forall disks idx, preserves (emits P) (build_storage_loop disks idx).
Proof.
  intros HP. induction disks as [|dev rest IH]; intros idx; cbn [build_storage_loop].
  - apply preserves_ret, emits_refl.
  - apply preserves_bind; [apply emits_trans | apply emits_call; intros r; apply HP |].
    intros r. apply preserves_bind; [apply emits_trans | apply emits_modify_guest |].
    intros _. apply IH.
Qed.

(** Nothing in [start_install] removes a volume or unlinks a file. *)
Lemma start_install_never_deletes (dry return_xml doboot transient : bool) :
  preserves (emits (fun ev => negb (is_deletion ev)))
    (start_install dry return_xml doboot transient).
Proof.
  unfold start_install, _flag_autostart. unfold_methods.
  emits_walk; apply emits_build_storage_loop; reflexivity.
Qed.

(** *** Rollback of created disks *)

Lemma remove_created_disk_run (disk : DeviceDisk) (p : string) (s : State) :
  path disk = Some p ->
  _remove_created_disk disk s =
    (Ok tt,
     mkState (self s) (guest s) (snd (removal_run disk p (world s)))
       (trace s ++ announced disk :: fst (removal_run disk p (world s)))
       (next_obj s)).
Proof.
  intros Epath.
  unfold _remove_created_disk, logging. fold (announced disk).
  unfold path_basename, os_unlink_path, removal_run, failure_logged, bind,
    try_except, emit, call, ret, raise, except_Exception.
  rewrite Epath. cbn [trace guest self world next_obj].
  destruct (meter_start _ (world s)) as [[u|e] w1];
    cbn [trace guest self world next_obj fst snd];
    [|rewrite <- !app_assoc; reflexivity].
  destruct (vol_object disk) as [vol|]; cbn [trace guest self world next_obj].
  - destruct (vol_delete vol w1) as [[ud|e] w2];
      cbn [trace guest self world next_obj fst snd];
      [|rewrite <- !app_assoc; reflexivity].
    destruct (meter_end w2) as [[[]|e] w3];
      cbn [trace guest self world next_obj fst snd];
      rewrite <- !app_assoc; reflexivity.
  - destruct (os_unlink p w1) as [[ud|e] w2];
      cbn [trace guest self world next_obj fst snd];
      [|rewrite <- !app_assoc; reflexivity].
    destruct (meter_end w2) as [[[]|e] w3];
      cbn [trace guest self world next_obj fst snd];
      rewrite <- !app_assoc; reflexivity.
Qed.

Lemma remove_created_disk_no_path (disk : DeviceDisk) (s : State) :
  path disk = None ->
  _remove_created_disk disk s =
    (Raise (mkExn TypeError "expected str, bytes or os.PathLike object, not NoneType"),
     mkState (self s) (guest s) (world s) (trace s ++ [announced disk]) (next_obj s)).
Proof.
  intros Epath.
  unfold _remove_created_disk, logging. fold (announced disk).
  unfold path_basename, bind, emit, raise. rewrite Epath. reflexivity.
Qed.

Lemma for_each_removals (disks : list DeviceDisk) :
  forall s : State,
    for_each disks _remove_created_disk s =
      (fst (removals disks (world s)),
       mkState (self s) (guest s) (snd (snd (removals disks (world s))))
         (trace s ++ fst (snd (removals disks (world s)))) (next_obj s)).
Proof.
  induction disks as [|disk rest IH]; intros s.
  - cbn. rewrite app_nil_r. destruct s; reflexivity.
  - cbn [for_each removals]. unfold bind at 1.
    destruct (path disk) as [p|] eqn:Epath.
    + rewrite (remove_created_disk_run disk p s Epath). rewrite IH.
      cbn [trace guest self world next_obj].
      destruct (removal_run disk p (world s)) as [evs w1]. cbn [fst snd].
      destruct (removals rest w1) as [r [evs' w2]]. cbn [fst snd].
      rewrite <- app_assoc. reflexivity.
    + rewrite (remove_created_disk_no_path disk s Epath). reflexivity.
Qed.

Lemma cleanup_created_disks_run_exact (s : State) :
  cleanup_created_disks s =
    (fst (removals (get_created_disks (guest s)) (world s)),
     mkState (self s) (guest s)
       (snd (snd (removals (get_created_disks (guest s)) (world s))))
       (trace s ++ fst (snd (removals (get_created_disks (guest s)) (world s))))
       (next_obj s)).
Proof.
  unfold cleanup_created_disks, bind, get.
  destruct (get_created_disks (guest s)) as [|d l] eqn:E.
  - cbn. rewrite app_nil_r. destruct s; reflexivity.
  - apply for_each_removals.
Qed.

Lemma removals_result (disks : list DeviceDisk) :
  forall w : World,
    fst (removals disks w) =
      if forallb has_path disks then Ok tt
      else Raise (mkExn TypeError
                    "expected str, bytes or os.PathLike object, not NoneType").
Proof.
  induction disks as [|disk rest IH]; intros w; [reflexivity|].
  cbn [removals forallb]. unfold has_path at 1.
  destruct (path disk) as [p|]; [|reflexivity].
  destruct (removal_run disk p w) as [evs w1].
  pose proof (IH w1) as X. destruct (removals rest w1) as [r [evs' w2]].
  cbn [fst andb] in *. exact X.
Qed.

(** C5. [cleanup_created_disks] is exactly the removal, one after the
    other, of the disks of the guest that have [storage_was_created] set,
    in their order: for each of them the meter is started, the volume
    deleted (the file unlinked when there is no volume object) and the
    meter ended, with the answers the collaborators give; a step that fails
    is logged, ends the removal of that disk only, and the next disk is
    removed from the world this one left. No other disk is looked at, and
    the guest and the installer are unchanged. No exception of the meter or
    of a removal leaves the method: it returns normally as long as every
    created disk has a path. [start_install] itself never deletes or unlinks
    anything: removal happens only when a caller asks for it. *)
Theorem cleanup_created_disks_spec :
  (forall s : State,
     cleanup_created_disks s =
       (fst (removals (filter storage_was_created (devices_disk (guest s))) (world s)),
        mkState (self s) (guest s)
          (snd (snd (removals (filter storage_was_created (devices_disk (guest s)))
                       (world s))))
          (trace s ++
           fst (snd (removals (filter storage_was_created (devices_disk (guest s)))
                       (world s))))
          (next_obj s))) /\
  (forall (disks : list DeviceDisk) (w : World),
     fst (removals disks w) =
       if forallb has_path disks then Ok tt
       else Raise (mkExn TypeError
                     "expected str, bytes or os.PathLike object, not NoneType")) /\
  (forall (dry return_xml doboot transient : bool) (s : State),
     exists evs,
       trace (snd (start_install dry return_xml doboot transient s)) = trace s ++ evs /\
       forallb (fun ev => negb (is_deletion ev)) evs = true).
Proof.
  split; [|split].
  - intros s. apply cleanup_created_disks_run_exact.
  - intros disks w. apply removals_result.
  - intros dry return_xml doboot transient s.
    destruct (start_install dry return_xml doboot transient s) as [r s'] eqn:E.
    exact (start_install_never_deletes dry return_xml doboot transient s r s' E).
Qed.

(** *** Autostart *)

(** Runs a method whose outcome is the hypothesis [H]: every collaborator
    answer and every branch is taken apart, innermost first. *)
Ltac unfold_monad_in H :=
  unfold read_local, logging in H;
  unfold bind, ret, raise, get, try_except, try_finally, call, emit,
    modify_self, modify_guest, except_Exception in H.

Ltac run_in H :=
  repeat (cbn [trace world self guest next_obj fst snd] in H;
    match type of H with
    | context [match ?x with _ => _ end] =>
        lazymatch x with
        | context [match _ with _ => _ end] => fail
        | _ => destruct x eqn:?
        end
    end);
  cbn [trace world self guest next_obj fst snd] in H.
























(** *** The install CDROM and the defaults *)

Lemma firstn_length_app {A : Type} (a b : list A) : firstn (length a) (a ++ b) = a.
Proof. induction a as [|x a IH]; cbn; [destruct b; reflexivity | rewrite IH; reflexivity]. Qed.

Lemma skipn_length_app {A : Type} (a b : list A) : skipn (length a) (a ++ b) = b.
Proof. induction a as [|x a IH]; cbn; [reflexivity | exact IH]. Qed.

Lemma add_install_cdrom_loop_before (dev : DeviceDisk) (pre : list DeviceDisk) :
  forall (seen : list DeviceDisk) (c : DeviceDisk) (post : list DeviceDisk),
    forallb (fun d => negb (is_cdrom d)) pre = true ->
    is_cdrom c = true ->
    _add_install_cdrom_loop dev (pre ++ c :: post) (length seen)
      (seen ++ pre ++ c :: post) =
    seen ++ pre ++ dev :: c :: post.
Proof.
  induction pre as [|p pre IH]; intros seen c post Hpre Hc.
  - cbn [app _add_install_cdrom_loop]. rewrite Hc. unfold list_insert.
    rewrite firstn_length_app, skipn_length_app. reflexivity.
  - cbn [forallb] in Hpre. apply andb_true_iff in Hpre. destruct Hpre as [Hp Hpre].
    apply negb_true_iff in Hp.
    cbn [app _add_install_cdrom_loop]. rewrite Hp.
    pose proof (IH (seen ++ [p]) c post Hpre Hc) as X.
    rewrite length_app, Nat.add_1_r, <- !app_assoc in X. exact X.
Qed.

Lemma add_install_cdrom_loop_append (dev : DeviceDisk) (disks : list DeviceDisk) :
  forall (idx : nat) (all : list DeviceDisk),
    forallb (fun d => negb (is_cdrom d)) disks = true ->
    _add_install_cdrom_loop dev disks idx all = all ++ [dev].
Proof.
  induction disks as [|p disks IH]; intros idx all H.
  - reflexivity.
  - cbn [forallb] in H. apply andb_true_iff in H. destruct H as [Hp H].
    apply negb_true_iff in Hp. cbn [_add_install_cdrom_loop]. rewrite Hp.
    apply IH. exact H.
Qed.

Lemma add_install_cdrom_device_done (s : State) (id : nat) :
  _install_cdrom_device (self s) = Some id ->
  _add_install_cdrom_device s = (Ok tt, s).
Proof.
  intros H. unfold _add_install_cdrom_device, bind, get. rewrite H. reflexivity.
Qed.

(** C10. With a cdrom path to install from and no install CDROM made yet,
    [_add_install_cdrom_device] makes a CDROM device for that path and puts
    it right before the first CDROM of the guest's disks, or at the end of
    the disks when the guest has no CDROM. Once the installer holds its
    install CDROM, a call changes nothing. *)
Theorem add_install_cdrom_device_position :
  (forall (s : State) (w : World),
     _install_cdrom_device (self s) = None ->
     truthy (_cdrom_path (self s)) = true ->
     disk_validate (install_cdrom_of s) (world s) = (Ok tt, w) ->
     exists s',
       _add_install_cdrom_device s = (Ok tt, s') /\
       _install_cdrom_device (self s') = Some (obj_id (install_cdrom_of s)) /\
       device (install_cdrom_of s) = DEVICE_CDROM /\
       path (install_cdrom_of s) = _cdrom_path (self s) /\
       (forall pre c post,
          devices_disk (guest s) = pre ++ c :: post ->
          forallb (fun d => negb (is_cdrom d)) pre = true ->
          is_cdrom c = true ->
          devices_disk (guest s') = pre ++ install_cdrom_of s :: c :: post) /\
       (forallb (fun d => negb (is_cdrom d)) (devices_disk (guest s)) = true ->
        devices_disk (guest s') = devices_disk (guest s) ++ [install_cdrom_of s]) /\
       _add_install_cdrom_device s' = (Ok tt, s')) /\
  (forall (s : State) (id : nat),
     _install_cdrom_device (self s) = Some id ->
     _add_install_cdrom_device s = (Ok tt, s)).
Proof.
  split; [|exact add_install_cdrom_device_done].
  intros s w Hnone Hpath Hval.
  unfold _add_install_cdrom_device at 1.
  unfold bind, get, new_DeviceDisk, call, modify_self, modify_guest, ret.
  rewrite Hnone, Hpath. cbn [negb trace world self guest next_obj].
  fold (install_cdrom_of s). rewrite Hval.
  cbn [trace world self guest next_obj].
  eexists. split; [reflexivity|]. cbn [self guest devices_disk set_devices_disk].
  split; [reflexivity|]. split; [reflexivity|]. split; [reflexivity|].
  split; [|split].
  - intros pre c post E Hpre Hc. rewrite E.
    exact (add_install_cdrom_loop_before _ pre [] c post Hpre Hc).
  - intros H. apply add_install_cdrom_loop_append. exact H.
  - eapply add_install_cdrom_device_done. reflexivity.
Qed.

Ltac unfold_state_ops_in H :=
  unfold call_set_defaults, new_DeviceDisk, get_xml in H.

Lemma set_install_defaults_sets_flag (s s1 : State) (u : unit) :
  set_install_defaults s = (Ok u, s1) -> _defaults_are_set (self s1) = true.
Proof.
  intros H. unfold set_install_defaults, _add_install_cdrom_device in H.
  unfold_state_ops_in H. unfold_monad_in H.
  run_in H; try discriminate H; inversion H; subst; clear H; cbn; auto.
Qed.

Lemma set_install_defaults_noop (s : State) :
  _defaults_are_set (self s) = true -> set_install_defaults s = (Ok tt, s).
Proof.
  intros H. unfold set_install_defaults, bind, get. rewrite H. reflexivity.
Qed.

(** C8. After a call of [set_install_defaults] that completed, the one-shot
    flag is set, and any number of further calls return at once: the
    installer, the guest (its disks and boot order included), the world
    and the trace stay what the first call left. *)
Theorem set_install_defaults_idempotent :
  forall (s s1 : State) (n : nat),
    set_install_defaults s = (Ok tt, s1) ->
    _defaults_are_set (self s1) = true /\
    set_install_defaults s1 = (Ok tt, s1) /\
    times (S n) set_install_defaults s = (Ok tt, s1).
Proof.
  intros s s1 n H.
  pose proof (set_install_defaults_sets_flag _ _ _ H) as F.
  pose proof (set_install_defaults_noop _ F) as N.
  split; [exact F|]. split; [exact N|].
  cbn [times]. unfold bind at 1. rewrite H. clear H.
  induction n as [|n IH]; cbn [times].
  - reflexivity.
  - unfold bind at 1. rewrite N. exact IH.
Qed.

(** *** The boot configuration around the install *)

Lemma remove_install_cdrom_media_run (s : State) :
  exists g, _remove_install_cdrom_media s =
    (Ok tt, mkState (self s) g (world s) (trace s) (next_obj s)).
Proof.
  unfold _remove_install_cdrom_media, bind, get, ret, modify_guest.
  destruct (_install_cdrom_device (self s)); [|exists (guest s); destruct s; reflexivity].
  destruct (livecd (self s)); [exists (guest s); destruct s; reflexivity|].
  destruct (osinfo_is_windows (guest s)); [exists (guest s); destruct s; reflexivity|].
  eexists. reflexivity.
Qed.

Lemma finish_get_install_xml_run (data : BootData) (s : State) :
  exists s', (_remove_install_cdrom_media ;; _finish_get_install_xml data) s = (Ok tt, s') /\
             boot_config (guest s') = data.
Proof.
  destruct (remove_install_cdrom_media_run s) as (g & Hrm).
  unfold bind at 1. rewrite Hrm.
  destruct data as [[[[bo k] i] ka] r].
  unfold _finish_get_install_xml, bind, modify_guest.
  cbn [trace world self guest next_obj].
  eexists. split; reflexivity.
Qed.

(** However the rendering of the install XML ends, the five fields are
    back to what they were when [_get_install_xml] was entered. *)
Lemma get_install_xml_restores : preserves same_boot_config _get_install_xml.
Proof.
  intros s r s' H. unfold _get_install_xml, _prepare_get_install_xml in H.
  unfold bind at 1 2, get, ret in H. unfold try_finally in H.
  destruct ((_alter_bootconfig;; ret_ <- get_xml;; (fun s0 => (Ok ret_, s0))) s)
    as [rb s1].
  match type of H with
  | context [(_remove_install_cdrom_media ;; _finish_get_install_xml ?data) s1] =>
      destruct (finish_get_install_xml_run data s1) as (s2 & Hfin & Hcfg);
      rewrite Hfin in H
  end.
  inversion H; subst. exact Hcfg.
Qed.

Lemma sbc_call {A : Type} (ev : res A -> Event) (f : World -> res A * World) :
  preserves same_boot_config (call ev f).
Proof.
  intros s r s' H. unfold call in H. destruct (f (world s)).
  inversion H; subst. reflexivity.
Qed.

Lemma sbc_emit (ev : Event) : preserves same_boot_config (emit ev).
Proof. intros s r s' H. inversion H; subst. reflexivity. Qed.

Lemma sbc_modify_self (f : Installer -> Installer) :
  preserves same_boot_config (modify_self f).
Proof. intros s r s' H. inversion H; subst. reflexivity. Qed.

Lemma sbc_new_DeviceDisk : preserves same_boot_config new_DeviceDisk.
Proof. intros s r s' H. inversion H; subst. reflexivity. Qed.

Lemma sbc_modify_guest (f : Guest -> Guest) :
  (forall g, boot_config (f g) = boot_config g) ->
  preserves same_boot_config (modify_guest f).
Proof. intros Hf s r s' H. inversion H; subst. apply Hf. Qed.

Ltac sbc_walk :=
  repeat first
    [ apply preserves_ret; [apply same_boot_config_refl]
    | apply preserves_raise; [apply same_boot_config_refl]
    | apply preserves_get; [apply same_boot_config_refl]
    | apply preserves_get_xml; [apply same_boot_config_refl]
    | apply preserves_read_local; [apply same_boot_config_refl]
    | apply get_install_xml_restores
    | apply sbc_modify_self
    | apply sbc_new_DeviceDisk
    | apply sbc_call
    | apply sbc_emit
    | apply sbc_modify_guest; intros ?; reflexivity
    | apply preserves_bind; [apply same_boot_config_trans | | intros ?]
    | apply preserves_try_finally; [apply same_boot_config_trans | | ]
    | apply preserves_try_except; [apply same_boot_config_trans | | intros ?]
    | match goal with
      | |- preserves _ (match ?x with _ => _ end) => destruct x
      | |- preserves _ (let '(_, _) := ?x in _) => destruct x
      end ].

Lemma sbc_build_storage_loop (disks : list DeviceDisk) :
  forall idx, preserves same_boot_config (build_storage_loop disks idx).
Proof.
  induction disks as [|dev rest IH]; intros idx; cbn [build_storage_loop].
  - apply preserves_ret, same_boot_config_refl.
  - apply preserves_bind; [apply same_boot_config_trans | apply sbc_call | intros r].
    apply preserves_bind; [apply same_boot_config_trans | | intros _; apply IH].
    apply sbc_modify_guest. intros g. reflexivity.
Qed.

(** What follows [set_install_defaults] in [start_install]. *)
Lemma sbc_install_body (dry return_xml doboot transient : bool) :
  preserves same_boot_config
    (try_finally
       (_prepare ;;
        (if negb dry then
           s <- get ;;
           build_storage_loop (devices_disk (guest s)) 0
         else ret tt) ;;
        xmls <- _build_xml ;;
        let '(install_xml, final_xml) := xmls in
        if return_xml then ret (ReturnXml install_xml final_xml)
        else if dry then ret ReturnNone
        else
          domain <- _create_guest install_xml final_xml doboot transient ;;
          s <- get ;;
          (if autostart (self s) then _flag_autostart domain else ret tt) ;;
          ret (ReturnDomain domain))
       _cleanup).
Proof.
  unfold _prepare, _build_xml, _create_guest, _manual_transient_create,
    _flag_autostart, _cleanup, logging.
  sbc_walk; apply sbc_build_storage_loop.
Qed.

Section GuestDefaults.

(** The guest's own [set_defaults] is not part of the file; what is asked
    of it here is that it leaves the five fields alone. *)
Hypothesis set_defaults_keeps_boot_config :
  forall (g : Guest) (w : World),
    boot_config (snd (guest_set_defaults g w)) = boot_config g.

Lemma sbc_call_set_defaults : preserves same_boot_config call_set_defaults.
Proof.
  intros s r s' H. unfold call_set_defaults in H.
  pose proof (set_defaults_keeps_boot_config (guest s) (world s)) as K.
  destruct (guest_set_defaults (guest s) (world s)) as [r0 g].
  inversion H; subst. exact K.
Qed.

Lemma sbc_add_install_cdrom_device :
  preserves same_boot_config _add_install_cdrom_device.
Proof. unfold _add_install_cdrom_device. sbc_walk. Qed.

Lemma set_install_defaults_keeps_boot_config (s s' : State) (r : res unit) :
  bootorder (os (guest s)) <> [] ->
  set_install_defaults s = (r, s') ->
  same_boot_config s s'.
Proof.
  intros Hbo H. unfold set_install_defaults in H.
  unfold bind at 1, get at 1 in H.
  destruct (_defaults_are_set (self s)).
  - inversion H; subst. reflexivity.
  - unfold bind at 1 in H.
    destruct (_add_install_cdrom_device s) as [[u|e] s1] eqn:E1.
    + pose proof (sbc_add_install_cdrom_device _ _ _ E1) as K1.
      unfold bind at 1, get at 1 in H.
      assert (Hbo1 : bootorder (os (guest s1)) <> []).
      { unfold same_boot_config, boot_config in K1. inversion K1 as [K].
        rewrite K. exact Hbo. }
      destruct (bootorder (os (guest s1))) as [|b bo] eqn:Ebo; [now elim Hbo1|].
      unfold bind at 1, ret at 1 in H.
      eapply same_boot_config_trans; [exact K1|].
      revert H.
      apply (preserves_bind same_boot_config same_boot_config_trans
               call_set_defaults (fun _ => modify_self (set_defaults_are_set true))).
      * apply sbc_call_set_defaults.
      * intros _. apply sbc_modify_self.
    + inversion H; subst. eapply sbc_add_install_cdrom_device. exact E1.
Qed.

Lemma start_install_keeps_boot_config (dry return_xml doboot transient : bool)
    (s s' : State) (r : res InstallResult) :
  bootorder (os (guest s)) <> [] ->
  start_install dry return_xml doboot transient s = (r, s') ->
  same_boot_config s s'.
Proof.
  intros Hbo H. unfold start_install in H.
  unfold bind at 1, get at 1 in H. unfold bind at 1 in H.
  destruct (call (EvValidateName (name (guest s)))
              (guest_validate_name (name (guest s))) s) as [[u|e] s1] eqn:E1.
  - pose proof (sbc_call _ _ _ _ _ E1) as K1.
    assert (Hbo1 : bootorder (os (guest s1)) <> []).
    { unfold same_boot_config, boot_config in K1. inversion K1 as [K].
      rewrite K. exact Hbo. }
    unfold bind at 1 in H.
    destruct (set_install_defaults s1) as [[u2|e] s2] eqn:E2.
    + pose proof (set_install_defaults_keeps_boot_config _ _ _ Hbo1 E2) as K2.
      eapply same_boot_config_trans; [exact K1|].
      eapply same_boot_config_trans; [exact K2|].
      eapply sbc_install_body. exact H.
    + inversion H; subst.
      eapply same_boot_config_trans; [exact K1|].
      eapply set_install_defaults_keeps_boot_config; eassumption.
  - inversion H; subst. eapply sbc_call. exact E1.
Qed.

(** C1. For a guest whose boot order is set, and with a guest
    [set_defaults] that leaves the five fields alone, [start_install]
    leaves bootorder, kernel, initrd, kernel arguments and reboot policy of
    the guest as they were before the call, whether it returns the XML,
    returns after a dry run, returns the domain, or raises. The rendering
    of the install XML restores them on each of its exits, for every guest. *)
Theorem start_install_restores_boot_config :
  forall (dry return_xml doboot transient : bool) (s : State),
    bootorder (os (guest s)) <> [] ->
    boot_config (guest (snd (start_install dry return_xml doboot transient s))) =
      boot_config (guest s) /\
    (forall s0 : State,
       boot_config (guest (snd (_get_install_xml s0))) = boot_config (guest s0)).
Proof.
  intros dry return_xml doboot transient s Hbo. split.
  - destruct (start_install dry return_xml doboot transient s) as [r s'] eqn:E.
    exact (start_install_keeps_boot_config _ _ _ _ _ _ _ Hbo E).
  - intros s0. destruct (_get_install_xml s0) as [r s'] eqn:E.
    exact (get_install_xml_restores _ _ _ E).
Qed.

End GuestDefaults.

(** *** Further properties: boot order and install CDROM *)

(** X4. The computed boot order has no duplicate and at most two entries,
    and names "hd" whenever the guest has a DISK device. *)
Theorem build_boot_order_nodup :
  forall (g : Guest) (bootdev : string),
    NoDup (_build_boot_order g bootdev) /\
    length (_build_boot_order g bootdev) <= 2 /\
    implb (existsb is_DEVICE_DISK (devices_disk g))
          (str_in "hd" (_build_boot_order g bootdev)) = true.
Proof.
  intros g bootdev. unfold _build_boot_order.
  rewrite build_boot_order_loop_spec. cbn [str_in]. rewrite orb_false_r.
  destruct (existsb is_DEVICE_DISK (devices_disk g)); cbn [andb implb].
  - destruct ("hd" =? bootdev)%string eqn:E; cbn [negb app str_in length].
    + rewrite E. repeat split; [repeat constructor; intros [] | lia].
    + rewrite E, String.eqb_refl. cbn [orb]. apply String.eqb_neq in E.
      repeat split; [|lia]. constructor; [|repeat constructor; intros []].
      intros [H|[]]. congruence.
  - repeat split; [repeat constructor; intros [] | cbn; lia].
Qed.

(** X5. The default boot order after an install: with an install boot
    device set (and not a live CD) a guest that has a DISK device boots from
    "hd" alone, never from the install media. *)
Theorem postinstall_boot_order_hd :
  forall (i : Installer) (g : Guest),
    truthy (_install_bootdev i) = true ->
    truthy (_cdrom i) && livecd i = false ->
    existsb is_DEVICE_DISK (devices_disk g) = true ->
    _get_postinstall_bootdev i g = "hd" /\
    _build_boot_order g (_get_postinstall_bootdev i g) = ["hd"].
Proof.
  intros i g Hb Hl Hd.
  assert (E : _get_postinstall_bootdev i g = "hd").
  { unfold _get_postinstall_bootdev. rewrite Hl.
    destruct (_install_bootdev i) as [b|]; [|discriminate Hb].
    rewrite Hb, Hd. reflexivity. }
  split; [exact E|]. rewrite E. unfold _build_boot_order.
  rewrite build_boot_order_loop_spec. rewrite Hd. reflexivity.
Qed.

(** X6. [_alter_bootconfig] never fails and touches the guest's boot
    configuration only: the reboot policy becomes "destroy", and the guest
    is never left with both a kernel and a boot order; disks, installer,
    world and trace are as before. *)
Theorem alter_bootconfig_spec :
  forall s : State,
    let s' := snd (_alter_bootconfig s) in
    fst (_alter_bootconfig s) = Ok tt /\
    on_reboot (guest s') = Some "destroy" /\
    truthy (kernel (os (guest s'))) &&
      negb (match bootorder (os (guest s')) with [] => true | _ => false end) = false /\
    devices_disk (guest s') = devices_disk (guest s) /\
    self s' = self s /\ world s' = world s /\ trace s' = trace s.
Proof.
  intros s s'. subst s'.
  destruct (_alter_bootconfig s) as [r s'] eqn:H.
  unfold _alter_bootconfig in H. unfold_monad_in H.
  run_in H; inversion H; subst; clear H; cbn;
    repeat split;
    try (apply andb_false_r);
    match goal with
    | Hc : _ && _can_set_guest_bootorder _ = true |- _ =>
        apply andb_true_iff in Hc; destruct Hc as [_ Hc];
        unfold _can_set_guest_bootorder in Hc;
        apply andb_true_iff in Hc; destruct Hc as [Hc _];
        apply andb_true_iff in Hc; destruct Hc as [_ Hc];
        apply negb_true_iff in Hc; cbn in Hc; rewrite Hc; reflexivity
    end.
Qed.

Lemma media_removed_map (id : nat) (w : World) (l : list DeviceDisk) :
  Forall2 (media_removed (Some id)) l
    (map (fun d => if Nat.eqb (obj_id d) id
                   then sync_path_props w (set_path None d) else d) l).
Proof.
  induction l as [|d l IH]; cbn [map]; constructor; [|exact IH].
  unfold media_removed. destruct (Nat.eqb (obj_id d) id) eqn:E.
  - apply Nat.eqb_eq in E. subst id. cbn. repeat split. right. split; reflexivity.
  - repeat split. left. reflexivity.
Qed.

Lemma media_removed_same (o : option nat) (l : list DeviceDisk) :
  Forall2 (media_removed o) l l.
Proof.
  induction l as [|d l IH]; constructor; [|exact IH].
  unfold media_removed. repeat split. left. reflexivity.
Qed.

(** X7. [_remove_install_cdrom_media] never fails. For a live CD or a
    Windows guest the media stays: nothing changes. Otherwise the only
    change is on the installer's CDROM device, whose path is cleared; every
    other disk, the order of the disks and the boot configuration are
    kept. *)
Theorem remove_install_cdrom_media_spec :
  forall s : State,
    let s' := snd (_remove_install_cdrom_media s) in
    fst (_remove_install_cdrom_media s) = Ok tt /\
    self s' = self s /\ world s' = world s /\ trace s' = trace s /\
    boot_config (guest s') = boot_config (guest s) /\
    Forall2 (media_removed (_install_cdrom_device (self s)))
      (devices_disk (guest s)) (devices_disk (guest s')) /\
    (if livecd (self s) || osinfo_is_windows (guest s) then s' = s
     else Forall (fun d' => Some (obj_id d') = _install_cdrom_device (self s) ->
                            path d' = None) (devices_disk (guest s'))).
Proof.
  intros s s'. subst s'.
  unfold _remove_install_cdrom_media, bind, get, ret, modify_guest.
  destruct (_install_cdrom_device (self s)) as [id|] eqn:Eid.
  - destruct (livecd (self s)); cbn [orb fst snd].
    { repeat split. apply media_removed_same. }
    destruct (osinfo_is_windows (guest s)); cbn [fst snd].
    { repeat split. apply media_removed_same. }
    cbn [self world trace guest]. repeat split.
    + apply media_removed_map.
    + unfold update_obj. cbn [devices_disk set_devices_disk].
      apply Forall_forall. intros d' Hin Hd'. apply in_map_iff in Hin.
      destruct Hin as (d & Hd & _). inversion Hd'; subst id.
      destruct (Nat.eqb (obj_id d) (obj_id d')) eqn:E.
      * subst d'. reflexivity.
      * subst d'. rewrite Nat.eqb_refl in E. discriminate E.
  - cbn [fst snd]. repeat split; [apply media_removed_same|].
    destruct (livecd (self s) || osinfo_is_windows (guest s)); [reflexivity|].
    apply Forall_forall. intros d' _ Hd'. discriminate Hd'.
Qed.

Lemma split_at_first_cdrom (l : list DeviceDisk) :
  forallb (fun d => negb (is_cdrom d)) l = true \/
  exists pre c post,
    l = pre ++ c :: post /\
    forallb (fun d => negb (is_cdrom d)) pre = true /\ is_cdrom c = true.
Proof.
  induction l as [|d l IH]; [left; reflexivity|].
  destruct (is_cdrom d) eqn:E.
  - right. exists [], d, l. repeat split. exact E.
  - destruct IH as [IH|(pre & c & post & Hl & Hpre & Hc)].
    + left. cbn. rewrite E, IH. reflexivity.
    + right. exists (d :: pre), c, post. subst l. cbn. rewrite E, Hpre. auto.
Qed.

Lemma add_install_cdrom_loop_inserts (dev : DeviceDisk) (l : list DeviceDisk) :
  exists pre post,
    l = pre ++ post /\ _add_install_cdrom_loop dev l 0 l = pre ++ dev :: post.
Proof.
  destruct (split_at_first_cdrom l) as [H|(pre & c & post & Hl & Hpre & Hc)].
  - exists l, []. rewrite app_nil_r. split; [reflexivity|].
    apply add_install_cdrom_loop_append. exact H.
  - exists pre, (c :: post). split; [exact Hl|]. subst l.
    exact (add_install_cdrom_loop_before dev pre [] c post Hpre Hc).
Qed.

(** X8. [_add_install_cdrom_device] never drops or reorders a disk of the
    guest: the disks are as before, or as before with the install CDROM put
    in between. When it raises (the device did not validate) the guest and
    the installer are untouched, so nothing records a half-made device. The
    boot configuration is never changed. *)
Theorem add_install_cdrom_device_keeps_disks :
  forall s : State,
    let s' := snd (_add_install_cdrom_device s) in
    (exists pre post,
       devices_disk (guest s) = pre ++ post /\
       (devices_disk (guest s') = pre ++ post \/
        devices_disk (guest s') = pre ++ install_cdrom_of s :: post /\
        _install_cdrom_device (self s') = Some (obj_id (install_cdrom_of s)) /\
        fst (_add_install_cdrom_device s) = Ok tt)) /\
    boot_config (guest s') = boot_config (guest s) /\
    match fst (_add_install_cdrom_device s) with
    | Ok _ => True
    | Raise _ => guest s' = guest s /\ self s' = self s
    end.
Proof.
  intros s s'. subst s'.
  unfold _add_install_cdrom_device, bind, get, ret, new_DeviceDisk, call,
    modify_self, modify_guest.
  destruct (_install_cdrom_device (self s)) eqn:Eid; cbn [fst snd].
  { split; [|split; [reflexivity|exact I]].
    exists (devices_disk (guest s)), []. rewrite app_nil_r. auto. }
  destruct (negb (truthy (_cdrom_path (self s)))); cbn [fst snd].
  { split; [|split; [reflexivity|exact I]].
    exists (devices_disk (guest s)), []. rewrite app_nil_r. auto. }
  cbn [self guest world trace next_obj]. fold (install_cdrom_of s).
  destruct (disk_validate (install_cdrom_of s) (world s)) as [[[]|e] w];
    cbn [fst snd self guest world trace next_obj].
  - split; [|split; [reflexivity|exact I]].
    destruct (add_install_cdrom_loop_inserts (install_cdrom_of s)
                (devices_disk (guest s))) as (pre & post & Hl & Hins).
    exists pre, post. split; [exact Hl|]. right.
    cbn [devices_disk set_devices_disk]. auto.
  - split; [|split; [reflexivity|split; reflexivity]].
    exists (devices_disk (guest s)), []. rewrite app_nil_r. auto.
Qed.

(** *** Further properties: creating the domain *)

(** X9. In the define-then-start path nothing is started when no boot is
    needed: the one call is [defineXML]. After a start that succeeded the
    domain is defined again, with the final XML, exactly when an install
    XML was used and differs from it; that second definition is then what
    the method returns. *)
Theorem manual_transient_create_paths :
  (forall (install_xml : option string) (final_xml : string) (s : State),
     let xml := or_else install_xml final_xml in
     _manual_transient_create install_xml final_xml false s =
       (fst (conn_defineXML xml (world s)),
        mkState (self s) (guest s) (snd (conn_defineXML xml (world s)))
          (trace s ++ [EvDefineXML xml (fst (conn_defineXML xml (world s)))])
          (next_obj s))) /\
  (forall (install_xml : option string) (final_xml : string) (s : State)
          (d : Domain) (w1 w2 : World),
     let xml := or_else install_xml final_xml in
     conn_defineXML xml (world s) = (Ok d, w1) ->
     domain_create d w1 = (Ok tt, w2) ->
     _manual_transient_create install_xml final_xml true s =
       if truthy install_xml && negb (xml =? final_xml)%string then
         (fst (conn_defineXML final_xml w2),
          mkState (self s) (guest s) (snd (conn_defineXML final_xml w2))
            (trace s ++ [EvDefineXML xml (Ok d); EvDomainCreate d (Ok tt);
                         EvDefineXML final_xml (fst (conn_defineXML final_xml w2))])
            (next_obj s))
       else
         (Ok d,
          mkState (self s) (guest s) w2
            (trace s ++ [EvDefineXML xml (Ok d); EvDomainCreate d (Ok tt)])
            (next_obj s))).
Proof.
  split.
  - intros install_xml final_xml s xml. subst xml.
    unfold _manual_transient_create, bind, call, ret. cbn [negb].
    destruct (conn_defineXML (or_else install_xml final_xml) (world s)) as [[d|e] w];
      reflexivity.
  - intros install_xml final_xml s d w1 w2 xml Hdef Hcreate. subst xml.
    unfold _manual_transient_create, bind, try_except, call, ret.
    rewrite Hdef. cbn [negb trace world self guest next_obj].
    rewrite Hcreate. cbn [trace world self guest next_obj].
    destruct install_xml as [x|]; [|cbn; rewrite <- app_assoc; reflexivity].
    unfold or_else, truthy.
    destruct (x =? "")%string eqn:Ex; cbn [negb andb];
      [rewrite <- app_assoc; reflexivity|].
    destruct (x =? final_xml)%string; cbn [negb].
    + rewrite <- app_assoc. reflexivity.
    + cbn [trace world self guest next_obj].
      destruct (conn_defineXML final_xml w2) as [r w3]. cbn [fst snd].
      rewrite <- !app_assoc. reflexivity.
Qed.

(** X10. A transient install on a 'vz' guest is refused: [_create_guest]
    raises, and no call reaches libvirt. If the progress meter started, the
    exception is the [RuntimeError] of the refusal. *)
Theorem create_guest_vz_transient :
  forall (install_xml : option string) (final_xml : string) (doboot : bool)
         (s : State),
    (gtype (guest s) =? "vz")%string = true ->
    let out := _create_guest install_xml final_xml doboot true s in
    exists (e : Exn) (evs : list Event),
      fst out = Raise e /\
      trace (snd out) = trace s ++ evs /\
      forallb (fun ev => negb (is_libvirt_call ev)) evs = true /\
      guest (snd out) = guest s /\
      match fst (meter_start "Creating domain..." (world s)) with
      | Ok _ =>
          e = mkExn RuntimeError "Domain type 'vz' doesn't support transient installs."
      | Raise e' => e = e'
      end.
Proof.
  intros install_xml final_xml doboot s Hvz out. subst out.
  unfold _create_guest, bind, call, get, raise.
  destruct (meter_start "Creating domain..." (world s)) as [[[]|e] w];
    cbn [trace world self guest next_obj fst snd].
  - rewrite Hvz. cbn [fst snd trace guest].
    eexists. exists [EvMeterStart "Creating domain..." (Ok tt)].
    repeat split.
  - eexists. exists [EvMeterStart "Creating domain..." (Raise e)].
    repeat split.
Qed.

(** X11. For a guest that is not 'vz', [_create_guest] never starts or
    undefines a domain itself and never sets autostart; it defines nothing
    when the install is transient, and what it defines otherwise is the
    final XML, never the install XML. The guest is not changed. *)
Theorem create_guest_plain :
  forall (install_xml : option string) (final_xml : string)
         (doboot transient : bool) (s : State),
    (gtype (guest s) =? "vz")%string = false ->
    let out := _create_guest install_xml final_xml doboot transient s in
    exists evs : list Event,
      trace (snd out) = trace s ++ evs /\
      Forall (plain_create_event final_xml transient) evs /\
      guest (snd out) = guest s.
Proof.
  intros install_xml final_xml doboot transient s Hvz out. subst out.
  destruct (_create_guest install_xml final_xml doboot transient s) as [r s'] eqn:H.
  unfold _create_guest, _manual_transient_create in H. unfold_monad_in H.
  run_in H; try congruence;
    inversion H; subst; clear H;
    (eexists; split; [cbn [snd trace]; rewrite <- ?app_assoc; reflexivity|]);
    cbn [app snd guest]; (split; [|reflexivity]);
    repeat (constructor; cbn [plain_create_event]); auto;
    apply negb_true_iff; assumption.
Qed.

(** X12. A failure to fetch the XML of the new domain never fails
    [_create_guest]: once [XMLDesc] has been asked of a domain, that domain
    is what the method returns, whatever the answer was. *)
Theorem create_guest_XMLDesc_harmless :
  forall (install_xml : option string) (final_xml : string)
         (doboot transient : bool) (s : State),
    let out := _create_guest install_xml final_xml doboot transient s in
    exists evs : list Event,
      trace (snd out) = trace s ++ evs /\
      forall (d : Domain) (rx : res string),
        In (EvXMLDesc d rx) evs -> fst out = Ok d.
Proof.
  intros install_xml final_xml doboot transient s out. subst out.
  destruct (_create_guest install_xml final_xml doboot transient s) as [r s'] eqn:H.
  unfold _create_guest, _manual_transient_create in H. unfold_monad_in H.
  run_in H;
    inversion H; subst; clear H;
    (eexists; split; [cbn [snd trace]; rewrite <- ?app_assoc; reflexivity|]);
    cbn [app fst]; intros d0 rx Hin; cbn [In] in Hin;
    repeat (destruct Hin as [Hin|Hin]; [try discriminate Hin|]);
    try contradiction;
    try (inversion Hin; subst; reflexivity).
Qed.

(** *** Further properties: the install as a whole *)

(** X13. When the name of the guest does not validate, [start_install]
    raises that error at once: no default is set, no disk is built, nothing
    is prepared or cleaned up, and the guest and the installer are as
    before. *)
Theorem start_install_invalid_name :
  forall (dry return_xml doboot transient : bool) (s : State) (e : Exn) (w : World),
    guest_validate_name (name (guest s)) (world s) = (Raise e, w) ->
    start_install dry return_xml doboot transient s =
      (Raise e,
       mkState (self s) (guest s) w
         (trace s ++ [EvValidateName (name (guest s)) (Raise e)]) (next_obj s)).
Proof.
  intros dry return_xml doboot transient s e w H.
  unfold start_install, bind, get, call. rewrite H. reflexivity.
Qed.

(** X14. What a dry run reaches: the only calls of [start_install] with
    [dry] set that leave an event are the name validation, the validation
    of the install CDROM device, the tree-media prepare and cleanup, and
    the log. In particular [defineXML] and [createXML] are never called,
    nothing is called on a domain, no [build_storage] is run, the meter is
    not started and nothing is removed. With [return_xml] set the same
    holds, except that [build_storage] is still run unless [dry] is set
    too. ([guest.set_defaults] and [guest.get_xml] leave no event and are
    not covered.) *)
Theorem start_install_dry_run :
  (forall (return_xml doboot transient : bool) (s : State),
     exists evs,
       trace (snd (start_install true return_xml doboot transient s)) = trace s ++ evs /\
       forallb is_dry_run_event evs = true) /\
  (forall (dry doboot transient : bool) (s : State),
     exists evs,
       trace (snd (start_install dry true doboot transient s)) = trace s ++ evs /\
       forallb (fun ev => is_dry_run_event ev || is_build_storage ev) evs = true).
Proof.
  split.
  - intros return_xml doboot transient s.
    destruct (start_install true return_xml doboot transient s) as [r s'] eqn:E.
    revert E. generalize s r s'. clear s r s'.
    change (preserves (emits is_dry_run_event)
              (start_install true return_xml doboot transient)).
    unfold start_install. cbn [negb]. unfold_methods. emits_walk.
  - intros dry doboot transient s.
    destruct (start_install dry true doboot transient s) as [r s'] eqn:E.
    revert E. generalize s r s'. clear s r s'.
    change (preserves (emits (fun ev => is_dry_run_event ev || is_build_storage ev))
              (start_install dry true doboot transient)).
    unfold start_install. unfold_methods.
    emits_walk; apply emits_build_storage_loop; reflexivity.
Qed.

Lemma tm_call {A : Type} (ev : res A -> Event) (f : World -> res A * World) :
  preserves same_treemedia (call ev f).
Proof.
  intros s r s' H. unfold call in H. destruct (f (world s)).
  inversion H; subst. reflexivity.
Qed.

Lemma tm_emit (ev : Event) : preserves same_treemedia (emit ev).
Proof. intros s r s' H. inversion H; subst. reflexivity. Qed.

Lemma tm_modify_guest (f : Guest -> Guest) : preserves same_treemedia (modify_guest f).
Proof. intros s r s' H. inversion H; subst. reflexivity. Qed.

Lemma tm_new_DeviceDisk : preserves same_treemedia new_DeviceDisk.
Proof. intros s r s' H. inversion H; subst. reflexivity. Qed.

Lemma tm_modify_self (f : Installer -> Installer) :
  (forall i, _treemedia (f i) = _treemedia i) ->
  preserves same_treemedia (modify_self f).
Proof. intros Hf s r s' H. inversion H; subst. apply Hf. Qed.

Lemma same_treemedia_refl (s : State) : same_treemedia s s.
Proof. reflexivity. Qed.

Lemma same_treemedia_trans (a b c : State) :
  same_treemedia a b -> same_treemedia b c -> same_treemedia a c.
Proof. unfold same_treemedia. intros H1 H2. rewrite H2. exact H1. Qed.

Ltac tm_walk :=
  repeat first
    [ apply preserves_ret; [apply same_treemedia_refl]
    | apply preserves_raise; [apply same_treemedia_refl]
    | apply preserves_get; [apply same_treemedia_refl]
    | apply preserves_get_xml; [apply same_treemedia_refl]
    | apply preserves_read_local; [apply same_treemedia_refl]
    | apply tm_modify_guest
    | apply tm_new_DeviceDisk
    | apply tm_call
    | apply tm_emit
    | apply tm_modify_self; intros ?; reflexivity
    | apply preserves_bind; [apply same_treemedia_trans | | intros ?]
    | apply preserves_try_finally; [apply same_treemedia_trans | | ]
    | apply preserves_try_except; [apply same_treemedia_trans | | intros ?]
    | match goal with
      | |- preserves _ (match ?x with _ => _ end) => destruct x
      | |- preserves _ (let '(_, _) := ?x in _) => destruct x
      end ].

Lemma tm_build_storage_loop (disks : list DeviceDisk) :
  forall idx, preserves same_treemedia (build_storage_loop disks idx).
Proof.
  induction disks as [|dev rest IH]; intros idx; cbn [build_storage_loop].
  - apply preserves_ret, same_treemedia_refl.
  - apply preserves_bind; [apply same_treemedia_trans | apply tm_call | intros r].
    apply preserves_bind; [apply same_treemedia_trans | apply tm_modify_guest |].
    intros _. apply IH.
Qed.

Lemma tm_start_install_try (dry return_xml doboot transient : bool) :
  preserves same_treemedia (start_install_try dry return_xml doboot transient).
Proof.
  unfold start_install_try. unfold_methods. unfold _flag_autostart.
  tm_walk; apply tm_build_storage_loop.
Qed.

(** X15. Once the name is validated and the defaults are set, an install
    from tree media always ends with the cleanup of the tree media, called
    on the guest and in the world the [try] block left, whether that block
    returned or raised. The result of [start_install] is the result of the
    block, unless the cleanup raises: then it is the exception of the
    cleanup. *)
Theorem start_install_cleans_up :
  forall (dry return_xml doboot transient : bool) (s s2 : State) (w : World)
         (tm : TreeMedia),
    guest_validate_name (name (guest s)) (world s) = (Ok tt, w) ->
    set_install_defaults
      (mkState (self s) (guest s) w
         (trace s ++ [EvValidateName (name (guest s)) (Ok tt)]) (next_obj s)) =
      (Ok tt, s2) ->
    _treemedia (self s2) = Some tm ->
    let rb := fst (start_install_try dry return_xml doboot transient s2) in
    let s3 := snd (start_install_try dry return_xml doboot transient s2) in
    let rc := fst (treemedia_cleanup tm (guest s3) (world s3)) in
    start_install dry return_xml doboot transient s =
      (match rc with
       | Ok _ => rb
       | Raise e => Raise e
       end,
       mkState (self s3) (guest s3)
         (snd (treemedia_cleanup tm (guest s3) (world s3)))
         (trace s3 ++ [EvTreeMediaCleanup rc]) (next_obj s3)).
Proof.
  intros dry return_xml doboot transient s s2 w tm Hv Hd Htm rb s3 rc.
  subst rb s3 rc.
  unfold start_install. unfold bind at 1 2 3, get at 1, call at 1.
  rewrite Hv. cbn [world self guest trace next_obj]. rewrite Hd.
  fold (start_install_try dry return_xml doboot transient).
  unfold try_finally.
  destruct (start_install_try dry return_xml doboot transient s2) as [rb s3] eqn:E.
  pose proof (tm_start_install_try _ _ _ _ _ _ _ E) as K.
  unfold same_treemedia in K. rewrite Htm in K.
  cbn [fst snd]. unfold _cleanup, bind, get, call. rewrite K.
  destruct (treemedia_cleanup tm (guest s3) (world s3)) as [[[]|e] w3];
    reflexivity.
Qed.

(** X16. [_prepare] keeps the kernel arguments the installer already has,
    in order, and adds at most one after them. It does not touch the guest,
    the install boot device, the cdrom or the tree media; without tree
    media, or when the preparation raises, the installer is unchanged. *)
Theorem prepare_keeps_extra_args :
  forall s : State,
    let s' := snd (_prepare s) in
    (exists l, extra_args (self s') = extra_args (self s) ++ l /\ length l <= 1) /\
    guest s' = guest s /\
    _install_bootdev (self s') = _install_bootdev (self s) /\
    _cdrom (self s') = _cdrom (self s) /\
    _treemedia (self s') = _treemedia (self s) /\
    match _treemedia (self s), fst (_prepare s) with
    | Some _, Ok _ => True
    | _, _ => self s' = self s
    end.
Proof.
  intros s s'. subst s'.
  destruct (_prepare s) as [r s'] eqn:H.
  unfold _prepare in H. unfold_monad_in H.
  run_in H; inversion H; subst; clear H; cbn;
    repeat split;
    first [ assumption
          | exists []; rewrite app_nil_r; split; [reflexivity | cbn; lia]
          | eexists; split; [reflexivity | cbn; lia] ].
Qed.

(** X17. [cleanup_created_disks] does not forget what it removed: the
    disks keep their [storage_was_created] mark. A second call is therefore
    the removal of the same disks once more, from the world the first call
    left: the same meter, delete and unlink calls are made again. *)
Theorem cleanup_created_disks_again :
  forall s : State,
    let created := get_created_disks (guest s) in
    let first := removals created (world s) in
    let second := removals created (snd (snd first)) in
    fst first = Ok tt ->
    times 2 cleanup_created_disks s =
      (fst second,
       mkState (self s) (guest s) (snd (snd second))
         (trace s ++ fst (snd first) ++ fst (snd second)) (next_obj s)).
Proof.
  intros s created first second Hok. subst created first second.
  cbn [times]. unfold bind at 1. rewrite cleanup_created_disks_run_exact, Hok.
  unfold bind at 1. rewrite cleanup_created_disks_run_exact.
  cbn [trace guest self world next_obj].
  rewrite <- app_assoc.
  destruct (fst (removals (get_created_disks (guest s))
                   (snd (snd (removals (get_created_disks (guest s)) (world s))))))
    as [[]|e]; reflexivity.
Qed.

(** *** Further properties: construction, XML, defaults, detection *)

(** X18. A constructed installer: the kernel and initrd overrides came as
    a pair and with a location; a cdrom makes "cdrom" the install boot
    device whatever was asked for; tree media exist exactly when a location
    was given; there is an install phase exactly when a cdrom, a boot
    device or a location was given; and nothing is marked as done yet. The
    guest is not touched. *)
Theorem init_success_spec :
  forall (cdrom location install_bootdev location_kernel location_initrd : option string)
         (s s' : State),
    __init__ cdrom location install_bootdev location_kernel location_initrd s =
      (Ok tt, s') ->
    truthy location_kernel = truthy location_initrd /\
    implb (truthy location_kernel) (truthy location) = true /\
    _install_bootdev (self s') =
      (if truthy cdrom then Some "cdrom" else install_bootdev) /\
    match _treemedia (self s') with
    | Some _ => truthy location = true
    | None => truthy location = false
    end /\
    match _cdrom (self s') with
    | Some _ => truthy cdrom = true
    | None => truthy cdrom = false
    end /\
    has_install_phase (self s') =
      truthy cdrom || truthy install_bootdev || truthy location /\
    livecd (self s') = false /\ autostart (self s') = false /\
    extra_args (self s') = [] /\ _defaults_are_set (self s') = false /\
    _install_cdrom_device (self s') = None /\
    guest s' = guest s.
Proof.
  intros cdrom location bootdev lk li s s' H.
  unfold __init__ in H. unfold_monad_in H.
  destruct (truthy lk) eqn:Hk, (truthy li) eqn:Hi, (truthy location) eqn:Hl;
    cbn [orb andb negb] in H; try discriminate H;
    destruct cdrom as [c|], location as [l|]; try discriminate Hl;
    try rewrite Hl in H;
    try (destruct (truthy (Some c)) eqn:Hc);
    run_in H; try discriminate H; inversion H; subst; clear H;
    unfold has_install_phase; cbn; rewrite ?orb_true_r, ?orb_false_r, ?andb_false_r;
    repeat split; auto.
Qed.

(** X19. What [_build_xml] returns: the final XML is the rendering of the
    guest as the call leaves it, and the boot configuration of that guest
    is the one it had before. With an install phase there is an install
    XML; without one there is none and the guest is not touched at all. *)
Theorem build_xml_spec :
  forall (s s' : State) (install_xml : option string) (final_xml : string),
    _build_xml s = (Ok (install_xml, final_xml), s') ->
    guest_get_xml (guest s') = Ok final_xml /\
    boot_config (guest s') = boot_config (guest s) /\
    if has_install_phase (self s) then exists x, install_xml = Some x
    else install_xml = None /\ guest s' = guest s.
Proof.
  intros s s' install_xml final_xml H.
  unfold _build_xml in H. unfold bind at 1 2, get at 1 in H.
  destruct (has_install_phase (self s)).
  - unfold bind at 1 in H.
    destruct (_get_install_xml s) as [[x|e] s1] eqn:E1; [|discriminate H].
    pose proof (get_install_xml_restores _ _ _ E1) as K.
    unfold ret at 1 in H. unfold bind at 1, get_xml at 1 in H.
    destruct (guest_get_xml (guest s1)) as [fx|e] eqn:E2; [|discriminate H].
    unfold bind, logging, emit, ret in H. inversion H; subst; clear H.
    cbn [guest]. split; [exact E2|]. split; [exact K|]. exists x. reflexivity.
  - unfold ret at 1 in H. unfold bind at 1, get_xml at 1 in H.
    destruct (guest_get_xml (guest s)) as [fx|e] eqn:E2; [|discriminate H].
    unfold bind, logging, emit, ret in H. inversion H; subst; clear H.
    cbn [guest]. auto.
Qed.

Lemma add_install_cdrom_device_run (s : State) (r : res unit) (s' : State) :
  _add_install_cdrom_device s = (r, s') ->
  guest s' = guest s \/
  exists pre post,
    devices_disk (guest s) = pre ++ post /\
    guest s' = set_devices_disk (pre ++ install_cdrom_of s :: post) (guest s).
Proof.
  intros H.
  unfold _add_install_cdrom_device, bind, get, ret, new_DeviceDisk, call,
    modify_self, modify_guest in H.
  destruct (_install_cdrom_device (self s)); [inversion H; auto|].
  destruct (negb (truthy (_cdrom_path (self s)))); [inversion H; auto|].
  cbn [self guest world trace next_obj] in H. fold (install_cdrom_of s) in H.
  destruct (disk_validate (install_cdrom_of s) (world s)) as [[[]|e] w];
    cbn [self guest world trace next_obj] in H; inversion H; subst; clear H;
    cbn [guest]; [|auto].
  right.
  destruct (add_install_cdrom_loop_inserts (install_cdrom_of s)
              (devices_disk (guest s))) as (pre & post & Hl & Hins).
  exists pre, post. rewrite Hins. auto.
Qed.

Lemma add_install_cdrom_device_can_set (s : State) (r : res unit) (s' : State) :
  _add_install_cdrom_device s = (r, s') ->
  _can_set_guest_bootorder (guest s') = _can_set_guest_bootorder (guest s).
Proof.
  intros H. destruct (add_install_cdrom_device_run _ _ _ H)
    as [G|(pre & post & Hl & G)]; rewrite G; [reflexivity|].
  unfold _can_set_guest_bootorder, all_boot_orders.
  cbn [os set_devices_disk devices_disk devices_other]. rewrite Hl.
  rewrite !map_app, !existsb_app. cbn [map existsb].
  change (boot_order (install_cdrom_of s)) with (@None nat).
  reflexivity.
Qed.

Section GuestDefaultsGuard.

Hypothesis set_defaults_keeps_boot_config :
  forall (g : Guest) (w : World),
    boot_config (snd (guest_set_defaults g w)) = boot_config g.

(** X20. [set_install_defaults] computes a boot order only for a guest
    that has none and may have one: with a boot order already set, or with
    a kernel, a container guest or per-device boot flags, the five fields
    are left as they are (for a guest [set_defaults] that leaves them
    alone), whatever the outcome of the call. *)
Theorem set_install_defaults_guard :
  forall (s s' : State) (r : res unit),
    bootorder (os (guest s)) <> [] \/ _can_set_guest_bootorder (guest s) = false ->
    set_install_defaults s = (r, s') ->
    boot_config (guest s') = boot_config (guest s).
Proof.
  intros s s' r [Hbo|Hcan] H.
  - exact (set_install_defaults_keeps_boot_config set_defaults_keeps_boot_config
             _ _ _ Hbo H).
  - unfold set_install_defaults in H. unfold bind at 1, get at 1 in H.
    destruct (_defaults_are_set (self s)); [inversion H; subst; reflexivity|].
    unfold bind at 1 in H.
    destruct (_add_install_cdrom_device s) as [[u|e] s1] eqn:E1.
    + pose proof (sbc_add_install_cdrom_device _ _ _ E1) as K1.
      pose proof (add_install_cdrom_device_can_set _ _ _ E1) as C1.
      rewrite Hcan in C1. unfold bind at 1, get at 1 in H. rewrite C1 in H.
      assert (H' : (call_set_defaults ;; modify_self (set_defaults_are_set true)) s1
                   = (r, s')).
      { destruct (bootorder (os (guest s1))); unfold bind at 1, ret at 1 in H;
          exact H. }
      eapply same_boot_config_trans; [exact K1|].
      revert H'.
      apply (preserves_bind same_boot_config same_boot_config_trans
               call_set_defaults (fun _ => modify_self (set_defaults_are_set true))).
      * apply sbc_call_set_defaults. exact set_defaults_keeps_boot_config.
      * intros _. apply sbc_modify_self.
    + inversion H; subst. eapply sbc_add_install_cdrom_device. exact E1.
Qed.

End GuestDefaultsGuard.

Section DetectDistroFacts.

Variable treemedia_detect_distro :
  TreeMedia -> Guest -> World -> res (option string) * World.
Variable conn_is_remote : World -> bool.
Variable guess_os_by_iso : string -> World -> res (option (string * string)) * World.

(** X21. [detect_distro] asks the tree media when there are any, and then
    never looks at the cdrom. Without tree media it answers [None], with
    nothing consulted and nothing changed but the log, when there is no
    cdrom or when the connection is remote. *)
Theorem detect_distro_spec :
  (forall (s : State) (tm : TreeMedia),
     _treemedia (self s) = Some tm ->
     fst (detect_distro treemedia_detect_distro conn_is_remote guess_os_by_iso s) =
       fst (treemedia_detect_distro tm (guest s) (world s)) /\
     world (snd (detect_distro treemedia_detect_distro conn_is_remote
                   guess_os_by_iso s)) =
       snd (treemedia_detect_distro tm (guest s) (world s))) /\
  (forall s : State,
     _treemedia (self s) = None ->
     truthy (cdrom (self s)) = false \/ conn_is_remote (world s) = true ->
     exists msg,
       detect_distro treemedia_detect_distro conn_is_remote guess_os_by_iso s =
         (Ok None,
          mkState (self s) (guest s) (world s)
            (trace s ++ [EvLog DEBUG msg;
                         EvLog DEBUG "installer.detect_distro returned=None"])
            (next_obj s))).
Proof.
  split.
  - intros s tm Htm.
    unfold detect_distro, bind, get, ret, consult, logging, emit. rewrite Htm.
    destruct (treemedia_detect_distro tm (guest s) (world s)) as [[v|e] w];
      split; reflexivity.
  - intros s Htm Hno.
    unfold detect_distro, bind, get, ret, consult, logging, emit. rewrite Htm.
    destruct (cdrom (self s)) as [c|] eqn:Ec.
    + destruct (truthy (Some c)) eqn:Et.
      * destruct Hno as [Hno|Hno]; [discriminate Hno|]. rewrite Hno.
        cbn [trace world self guest next_obj]. rewrite <- app_assoc.
        eexists. reflexivity.
      * cbn [trace world self guest next_obj]. rewrite <- app_assoc.
        eexists. reflexivity.
    + cbn [trace world self guest next_obj]. rewrite <- app_assoc.
      eexists. reflexivity.
Qed.

End DetectDistroFacts.

(** X22. A live CD (a cdrom with [livecd] set) has no install phase, boots
    from "cdrom" once the defaults are set, with the hard disk second if
    there is one, and keeps its media when the install XML is finished. *)
Theorem livecd_spec :
  forall (s : State),
    truthy (_cdrom (self s)) = true ->
    livecd (self s) = true ->
    has_install_phase (self s) = false /\
    _get_postinstall_bootdev (self s) (guest s) = "cdrom" /\
    _build_boot_order (guest s) (_get_postinstall_bootdev (self s) (guest s)) =
      "cdrom" :: (if existsb is_DEVICE_DISK (devices_disk (guest s)) then ["hd"] else []) /\
    _remove_install_cdrom_media s = (Ok tt, s).
Proof.
  intros s Hc Hl.
  assert (E : _get_postinstall_bootdev (self s) (guest s) = "cdrom").
  { unfold _get_postinstall_bootdev. rewrite Hc, Hl. reflexivity. }
  split; [unfold has_install_phase; rewrite Hc, Hl; reflexivity|].
  split; [exact E|]. split.
  - rewrite E. unfold _build_boot_order. rewrite build_boot_order_loop_spec.
    destruct (existsb is_DEVICE_DISK (devices_disk (guest s))); reflexivity.
  - unfold _remove_install_cdrom_media, bind, get, ret. rewrite Hl.
    destruct (_install_cdrom_device (self s)); reflexivity.
Qed.

End Facts.

(** C3 at work: the start fails and so does the undefine. *)
Lemma manual_transient_create_undefines_witness :
  let sw := Demo.mkSwitches true true None false in
  let s := Demo.state sw Demo.blank (Demo.a_guest [] []) in
  fst (_manual_transient_create (Some "<install/>") "<final/>" true s) =
    Raise (mkExn LibvirtError "internal error: boot failed") /\
  trace (snd (_manual_transient_create (Some "<install/>") "<final/>" true s)) =
    [EvDefineXML "<install/>" (Ok (DomainHandle 0));
     EvDomainCreate (DomainHandle 0)
       (Raise (mkExn LibvirtError "internal error: boot failed"));
     EvDomainUndefine (DomainHandle 0)
       (Raise (mkExn LibvirtError "domain is busy"))].
Proof.
  intros sw s.
  rewrite (@manual_transient_create_undefines (Demo.collaborators sw)
             (Some "<install/>") "<final/>" s (DomainHandle 0) 1 2
             (mkExn LibvirtError "internal error: boot failed")
             eq_refl eq_refl).
  split; reflexivity.
Defined.

(** C6 at work: a kernel, no initrd. *)
Lemma init_rejects_bad_media_pairing_witness :
  exists (e : Exn) (s' : State),
    __init__ None (Some "http://example.org/tree") None (Some "vmlinuz") None
      (Demo.state Demo.all_fine Demo.blank (Demo.a_guest [] [])) = (Raise e, s') /\
    exn_class e = ValueError /\
    world s' = 0 /\ trace s' = [] /\ guest s' = Demo.a_guest [] [].
Proof.
  apply (@init_rejects_bad_media_pairing (Demo.collaborators Demo.all_fine)).
  left. split; reflexivity.
Defined.

(** C1 at work: a cdrom install on a guest that boots from its disk. *)
Lemma start_install_restores_boot_config_witness :
  let s := Demo.state Demo.all_fine Demo.cdrom_installer
             (Demo.a_guest ["hd"] [Demo.harddisk 1 "/var/lib/libvirt/images/vm1.img" false]) in
  boot_config (guest (snd (start_install false false true false s))) =
    (["hd"], None, None, None, Some "restart") /\
  (forall s0 : @State (Demo.collaborators Demo.all_fine),
     boot_config (guest (snd (_get_install_xml s0))) = boot_config (guest s0)).
Proof.
  intros s.
  apply (@start_install_restores_boot_config (Demo.collaborators Demo.all_fine)
           (fun g w => eq_refl) false false true false s).
  discriminate.
Defined.

(** C5 at work: an old disk, a created volume whose removal fails, and a
    created file. *)
Lemma cleanup_created_disks_run :
  let sw := Demo.mkSwitches false false None true in
  let disks := [Demo.harddisk 1 "/var/lib/libvirt/images/old.img" false;
                Demo.volume_disk 2 "/var/lib/libvirt/images/new.img" "new.img";
                Demo.harddisk 3 "/var/lib/libvirt/images/data.img" true] in
  let s := Demo.state sw Demo.blank (Demo.a_guest ["hd"] disks) in
  fst (cleanup_created_disks s) = Ok tt /\
  filter is_deletion (trace (snd (cleanup_created_disks s))) =
    [EvVolDelete "new.img" (Raise (mkExn LibvirtError "volume in use"));
     EvUnlink "/var/lib/libvirt/images/data.img" (Ok tt)].
Proof. intros sw disks s. split; vm_compute; reflexivity. Qed.

(** C8 at work: three calls on a fresh cdrom installer. *)
Lemma set_install_defaults_idempotent_witness :
  let s := Demo.state Demo.all_fine Demo.cdrom_installer
             (Demo.a_guest [] [Demo.harddisk 1 "/var/lib/libvirt/images/vm1.img" false]) in
  let s1 := snd (set_install_defaults s) in
  _defaults_are_set (self s1) = true /\
  set_install_defaults s1 = (Ok tt, s1) /\
  times 3 set_install_defaults s = (Ok tt, s1).
Proof.
  intros s s1.
  apply (@set_install_defaults_idempotent (Demo.collaborators Demo.all_fine) s s1 2).
  vm_compute. reflexivity.
Defined.

(** What that first call left in the guest. *)
Lemma set_install_defaults_run :
  let s := Demo.state Demo.all_fine Demo.cdrom_installer
             (Demo.a_guest [] [Demo.harddisk 1 "/var/lib/libvirt/images/vm1.img" false]) in
  let s1 := snd (times 3 set_install_defaults s) in
  map device (devices_disk (guest s1)) = [DEVICE_DISK; DEVICE_CDROM] /\
  bootorder (os (guest s1)) = ["hd"].
Proof. intros s s1. split; vm_compute; reflexivity. Qed.

(** C10 at work: a disk, an empty CDROM drive, a disk. *)
Lemma add_install_cdrom_device_position_witness :
  let disks := [Demo.harddisk 1 "/var/lib/libvirt/images/a.img" false;
                Demo.cdrom_drive 2;
                Demo.harddisk 3 "/var/lib/libvirt/images/b.img" false] in
  let s := Demo.state Demo.all_fine Demo.cdrom_installer (Demo.a_guest [] disks) in
  exists s',
    _add_install_cdrom_device s = (Ok tt, s') /\
    _install_cdrom_device (self s') = Some 100 /\
    map obj_id (devices_disk (guest s')) = [1; 100; 2; 3] /\
    _add_install_cdrom_device s' = (Ok tt, s').
Proof.
  intros disks s.
  destruct (proj1 (@add_install_cdrom_device_position (Demo.collaborators Demo.all_fine))
              s 0 eq_refl eq_refl eq_refl)
    as (s' & Hrun & Hid & _ & _ & Hbefore & _ & Hagain).
  exists s'. split; [exact Hrun|]. split; [exact Hid|]. split; [|exact Hagain].
  rewrite (Hbefore [Demo.harddisk 1 "/var/lib/libvirt/images/a.img" false]
             (Demo.cdrom_drive 2)
             [Demo.harddisk 3 "/var/lib/libvirt/images/b.img" false]
             eq_refl eq_refl eq_refl).
  reflexivity.
Defined.

(** The XML pair of a cdrom install on a guest that boots from the
    network: the install XML has the install-time values, the final XML the
    guest's own. *)
Lemma start_install_return_xml_run :
  let s := Demo.state Demo.all_fine Demo.cdrom_installer
             (Demo.a_guest ["network"]
                [Demo.harddisk 1 "/var/lib/libvirt/images/vm1.img" false]) in
  fst (start_install false true true false s) =
    Ok (ReturnXml
          (Some "<domain><name>vm1</name><os><kernel>None</kernel><boot>cdrom,hd</boot></os><on_reboot>destroy</on_reboot></domain>")
          "<domain><name>vm1</name><os><kernel>None</kernel><boot>network</boot></os><on_reboot>restart</on_reboot></domain>").
Proof. intros s. vm_compute. reflexivity. Qed.

(** Autostart on a host without support for it, and on one that refuses. *)
Lemma start_install_autostart_runs :
  let unsupported :=
    mkExn LibvirtError "this function is not supported by the connection driver" in
  let denied := mkExn LibvirtError "access denied" in
  let s e := Demo.state (Demo.mkSwitches false false (Some e) false)
               Demo.cdrom_installer (Demo.a_guest ["hd"] []) in
  fst (start_install false false true false (s unsupported)) =
    Ok (ReturnDomain (DomainHandle 2)) /\
  fst (start_install false false true false (s denied)) = Raise denied.
Proof. intros unsupported denied s. split; vm_compute; reflexivity. Qed.

(** *** The further properties at work *)

Lemma postinstall_boot_order_hd_witness :
  let g := Demo.a_guest [] [Demo.harddisk 1 "/var/lib/libvirt/images/vm1.img" false] in
  _get_postinstall_bootdev Demo.cdrom_installer g = "hd" /\
  _build_boot_order g (_get_postinstall_bootdev Demo.cdrom_installer g) = ["hd"].
Proof.
  intros g.
  apply (postinstall_boot_order_hd Demo.cdrom_installer g eq_refl eq_refl eq_refl).
Defined.

Lemma manual_transient_create_paths_witness :
  let s := Demo.state Demo.all_fine Demo.blank (Demo.a_guest [] []) in
  fst (_manual_transient_create (Some "<install/>") "<final/>" true s) =
    Ok (DomainHandle 2) /\
  trace (snd (_manual_transient_create (Some "<install/>") "<final/>" true s)) =
    [EvDefineXML "<install/>" (Ok (DomainHandle 0));
     EvDomainCreate (DomainHandle 0) (Ok tt);
     EvDefineXML "<final/>" (Ok (DomainHandle 2))].
Proof.
  intros s.
  rewrite (proj2 (@manual_transient_create_paths (Demo.collaborators Demo.all_fine))
             (Some "<install/>") "<final/>" s (DomainHandle 0) 1 2 eq_refl eq_refl).
  split; reflexivity.
Defined.

Lemma create_guest_vz_transient_witness :
  let s := Demo.state Demo.all_fine Demo.cdrom_installer
             (mkGuest "ct1" "vz" (mkDomainOs [] None None None false) None [] [] false) in
  let out := _create_guest (Some "<install/>") "<final/>" true true s in
  exists (e : Exn) (evs : list Event),
    fst out = Raise e /\
    trace (snd out) = trace s ++ evs /\
    forallb (fun ev => negb (is_libvirt_call ev)) evs = true /\
    guest (snd out) = guest s /\
    e = mkExn RuntimeError "Domain type 'vz' doesn't support transient installs.".
Proof.
  intros s.
  apply (@create_guest_vz_transient (Demo.collaborators Demo.all_fine)
           (Some "<install/>") "<final/>" true s eq_refl).
Defined.

Lemma create_guest_plain_witness :
  let s := Demo.state Demo.all_fine Demo.cdrom_installer (Demo.a_guest ["hd"] []) in
  let out := _create_guest (Some "<install/>") "<final/>" true true s in
  exists evs : list Event,
    trace (snd out) = trace s ++ evs /\
    Forall (plain_create_event "<final/>" true) evs /\
    guest (snd out) = guest s.
Proof.
  intros s.
  apply (@create_guest_plain (Demo.collaborators Demo.all_fine)
           (Some "<install/>") "<final/>" true true s eq_refl).
Defined.

Lemma start_install_invalid_name_witness :
  let g := mkGuest "" "kvm" (mkDomainOs [] None None None false) None [] [] false in
  let s := Demo.state Demo.all_fine Demo.cdrom_installer g in
  start_install false false true false s =
    (Raise (mkExn ValueError "Guest name is required"),
     @mkState (Demo.collaborators Demo.all_fine) Demo.cdrom_installer g 0
       [EvValidateName "" (Raise (mkExn ValueError "Guest name is required"))] 100).
Proof.
  intros g s.
  apply (@start_install_invalid_name (Demo.collaborators Demo.all_fine)
           false false true false s (mkExn ValueError "Guest name is required") 0 eq_refl).
Defined.

Lemma start_install_cleans_up_witness :
  let s := Demo.state Demo.all_fine Demo.tree_installer (Demo.a_guest ["hd"] []) in
  fst (start_install false false true false s) = Ok (ReturnDomain (DomainHandle 2)) /\
  last (trace (snd (start_install false false true false s))) (EvLog DEBUG "") =
    EvTreeMediaCleanup (Ok tt).
Proof.
  intros s.
  rewrite (@start_install_cleans_up (Demo.collaborators Demo.all_fine)
             false false true false s
             (snd (set_install_defaults
                     (@mkState (Demo.collaborators Demo.all_fine) (self s) (guest s) 0
                        [EvValidateName "vm1" (Ok tt)] 100)))
             0 (mkTreeMedia "http://example.org/tree" None)).
  - split; vm_compute; reflexivity.
  - reflexivity.
  - vm_compute. reflexivity.
  - reflexivity.
Defined.

Lemma cleanup_created_disks_again_witness :
  let sw := Demo.mkSwitches false false None true in
  let disks := [Demo.harddisk 1 "/var/lib/libvirt/images/old.img" false;
                Demo.volume_disk 2 "/var/lib/libvirt/images/new.img" "new.img";
                Demo.harddisk 3 "/var/lib/libvirt/images/data.img" true] in
  let s := Demo.state sw Demo.blank (Demo.a_guest ["hd"] disks) in
  fst (times 2 cleanup_created_disks s) = Ok tt /\
  filter is_deletion (trace (snd (times 2 cleanup_created_disks s))) =
    [EvVolDelete "new.img" (Raise (mkExn LibvirtError "volume in use"));
     EvUnlink "/var/lib/libvirt/images/data.img" (Ok tt);
     EvVolDelete "new.img" (Raise (mkExn LibvirtError "volume in use"));
     EvUnlink "/var/lib/libvirt/images/data.img" (Ok tt)].
Proof.
  intros sw disks s.
  rewrite (@cleanup_created_disks_again (Demo.collaborators sw) s eq_refl).
  split; vm_compute; reflexivity.
Defined.

Lemma init_success_spec_witness :
  let s := Demo.state Demo.all_fine Demo.blank (Demo.a_guest [] []) in
  let s' := snd (__init__ (Some "/isos/install.iso") None (Some "network") None None s) in
  _install_bootdev (self s') = Some "cdrom" /\ has_install_phase (self s') = true.
Proof.
  intros s s'.
  assert (H : __init__ (Some "/isos/install.iso") None (Some "network") None None s
              = (Ok tt, s')) by (vm_compute; reflexivity).
  destruct (@init_success_spec (Demo.collaborators Demo.all_fine) _ _ _ _ _ _ _ H)
    as (_ & _ & Hb & _ & _ & Hp & _).
  split; [exact Hb | exact Hp].
Defined.

Lemma build_xml_spec_witness :
  let s := Demo.state Demo.all_fine Demo.cdrom_installer
             (Demo.a_guest ["network"]
                [Demo.harddisk 1 "/var/lib/libvirt/images/vm1.img" false]) in
  let s' := snd (_build_xml s) in
  @guest_get_xml (Demo.collaborators Demo.all_fine) (guest s') =
    Ok "<domain><name>vm1</name><os><kernel>None</kernel><boot>network</boot></os><on_reboot>restart</on_reboot></domain>"%string /\
  boot_config (guest s') = boot_config (guest s).
Proof.
  intros s s'.
  assert (H : _build_xml s =
    (Ok (Some "<domain><name>vm1</name><os><kernel>None</kernel><boot>cdrom,hd</boot></os><on_reboot>destroy</on_reboot></domain>"%string,
         "<domain><name>vm1</name><os><kernel>None</kernel><boot>network</boot></os><on_reboot>restart</on_reboot></domain>"%string),
     s')) by (vm_compute; reflexivity).
  destruct (@build_xml_spec (Demo.collaborators Demo.all_fine) _ _ _ _ H)
    as (Hx & Hb & _).
  split; [exact Hx | exact Hb].
Defined.

Lemma set_install_defaults_guard_witness :
  let g := mkGuest "vm1" "kvm"
             (mkDomainOs [] (Some "/boot/vmlinuz") (Some "/boot/initrd.img") None false)
             (Some "restart")
             [Demo.harddisk 1 "/var/lib/libvirt/images/vm1.img" false] [] false in
  let s := Demo.state Demo.all_fine Demo.cdrom_installer g in
  boot_config (guest (snd (set_install_defaults s))) = boot_config g.
Proof.
  intros g s.
  apply (@set_install_defaults_guard (Demo.collaborators Demo.all_fine)
           (fun g w => eq_refl) s (snd (set_install_defaults s))
           (fst (set_install_defaults s))).
  - right. reflexivity.
  - apply surjective_pairing.
Defined.

Lemma detect_distro_spec_witness :
  let s := Demo.state Demo.all_fine Demo.cdrom_installer (Demo.a_guest [] []) in
  exists msg,
    detect_distro (fun _ _ w => (Ok (Some "fedora30"), w)) (fun _ => true)
      (fun _ w => (Ok (Some ("win10", "")), w)) s =
      (Ok None,
       @mkState (Demo.collaborators Demo.all_fine) (self s) (guest s) (world s)
         (trace s ++ [EvLog DEBUG msg;
                      EvLog DEBUG "installer.detect_distro returned=None"])
         (next_obj s)).
Proof.
  intros s.
  apply (proj2 (@detect_distro_spec (Demo.collaborators Demo.all_fine)
                  (fun _ _ w => (Ok (Some "fedora30"), w)) (fun _ => true)
                  (fun _ w => (Ok (Some ("win10", "")), w))) s eq_refl).
  right. reflexivity.
Defined.

Lemma livecd_spec_witness :
  let i := mkInstaller true [] false (Some "cdrom") None None None false
             (Some "/isos/live.iso") None in
  let s := Demo.state Demo.all_fine i
             (Demo.a_guest [] [Demo.harddisk 1 "/var/lib/libvirt/images/vm1.img" false]) in
  has_install_phase (self s) = false /\
  _get_postinstall_bootdev (self s) (guest s) = "cdrom" /\
  _build_boot_order (guest s) (_get_postinstall_bootdev (self s) (guest s)) =
    ["cdrom"; "hd"] /\
  _remove_install_cdrom_media s = (Ok tt, s).
Proof.
  intros i s.
  apply (@livecd_spec (Demo.collaborators Demo.all_fine) s eq_refl eq_refl).
Defined.

End InstallerFacts.
